(** * CoilSnake project descriptor: [coilsnake/util/common/project.py]

    A shallow embedding of the module registry, the module configuration
    and the project object, and the properties of the project
    specification proved (or refuted) against it.

    Python objects are mutable and exceptions leave the mutations made
    before the [raise] in place, so stateful methods are written in a
    state-and-exception monad whose failures return the state reached. *)

From Stdlib Require Import ZArith Ascii String.
From stdpp Require Import base option list strings gmap pretty.

Open Scope string_scope.
Open Scope list_scope.

(** ** Exceptions and the state-and-exception monad *)

(** The exception classes the module raises or lets through.  [IOError]
    is Python 3's alias of [OSError]. *)
Inductive PyExc : Type :=
  | IndexError (msg : string)
  | KeyError (key : string)
  | ValueError (msg : string)
  | AssertionError (msg : string)
  | NotImplementedError (msg : string)
  | AttributeError (msg : string)
  | CoilSnakeError (msg : string)
  | OSError (msg : string)
  | ImportError (msg : string)
  | OtherException (msg : string).

Inductive Result (A : Type) : Type :=
  | Ok (a : A)
  | Raise (e : PyExc).
Arguments Ok {A} a.
Arguments Raise {A} e.

Definition is_OSError (e : PyExc) : bool :=
  match e with OSError _ => true | _ => false end.

(** A computation over a state [S]: the outcome together with the state
    it leaves, also when it raises. *)
Definition M (S A : Type) : Type := S → Result A * S.

Definition ret {S A} (a : A) : M S A := λ s, (Ok a, s).
Definition raise {S A} (e : PyExc) : M S A := λ s, (Raise e, s).
Definition bind {S A B} (m : M S A) (k : A → M S B) : M S B :=
  λ s, match m s with
       | (Ok a, s') => k a s'
       | (Raise e, s') => (Raise e, s')
       end.
Definition get {S} : M S S := λ s, (Ok s, s).
Definition put {S} (s : S) : M S unit := λ _, (Ok tt, s).
Definition gets {S A} (f : S → A) : M S A := λ s, (Ok (f s), s).
Definition modify {S} (f : S → S) : M S unit := λ s, (Ok tt, f s).

(** [try: m except E: h], for the exceptions selected by [catches]. *)
Definition try_except {S A} (m : M S A) (catches : PyExc → bool) (h : M S A) : M S A :=
  λ s, match m s with
       | (Raise e, s') => if catches e then h s' else (Raise e, s')
       | r => r
       end.

(** [assert c, msg] *)
Definition assert {S} (c : bool) (msg : string) : M S unit :=
  if c then ret tt else raise (AssertionError msg).

#[global] Instance M_ret {S} : MRet (M S) := λ A, ret.
#[global] Instance M_bind {S} : MBind (M S) := λ A B k m, bind m k.

(** A [for] loop that collects one result per element. *)
Fixpoint for_each {S A B} (f : A → M S B) (l : list A) : M S (list B) :=
  match l with
  | [] => ret []
  | x :: l' => y ← f x; ys ← for_each f l'; ret (y :: ys)
  end.

(** ** Python string operations used by the module *)

Definition newline : Ascii.ascii := "010"%char.

(** [s.rstrip('\n')] *)
Fixpoint rstrip_newline (s : string) : string :=
  match s with
  | EmptyString => EmptyString
  | String c r =>
      match rstrip_newline r with
      | EmptyString => if Ascii.eqb c newline then EmptyString else String c EmptyString
      | r' => String c r'
      end
  end.

(** The lines a text file yields when iterated: each keeps its
    terminating newline, the last one may lack it. *)
Fixpoint file_lines (s : string) : list string :=
  match s with
  | EmptyString => []
  | String c r =>
      if Ascii.eqb c newline then String c EmptyString :: file_lines r
      else match file_lines r with
           | [] => [String c EmptyString]
           | l :: ls => String c l :: ls
           end
  end.

(** [s.split(sep)] for a one-character separator; never empty. *)
Fixpoint split (sep : Ascii.ascii) (s : string) : list string :=
  match s with
  | EmptyString => [EmptyString]
  | String c r =>
      if Ascii.eqb c sep then EmptyString :: split sep r
      else match split sep r with
           | [] => [String c EmptyString]
           | x :: xs => String c x :: xs
           end
  end.

(** [l[-1]] of a list of strings known to be non-empty. *)
Definition last_component (l : list string) : string := List.last l EmptyString.

(** [s.rpartition(sep)[-1]]: what follows the last separator, the whole
    string when there is none. *)
Definition rpartition_last (sep : Ascii.ascii) (s : string) : string :=
  last_component (split sep s).

(** [str(n)], as an f-string renders an integer. *)
Definition str_of_int (n : Z) : string := pretty n.

(** ** The host: what the module calls but does not define *)

(** An open file object: the path and the mode it was opened with. *)
Record File : Type := { f_name : string; f_mode : string }.

(** The resource registry [_resources]: module name, then resource name,
    to a path relative to the project directory. *)
Abbreviation Resources := (gmap string (gmap string string)).

(** The decoded descriptor, [data] in [Project.__init__], with the types
    the descriptor format gives its keys.  [None] is an absent key; the
    inner [None] of [d_resources] is a [resources:] key without value. *)
Record SnakeData : Type := {
  d_romtype : option string;
  d_version : option Z;
  d_moduleconfig : option (gmap string (list string));
  d_resources : option (option Resources) }.

(** The operating system, the interpreter's import machinery, the YAML
    codec of [coilsnake.util.common.yml], the asset loader and the module
    classes are outside this file of the repository; they are an
    interface here, and every theorem holds for each implementation. *)
Class Host : Type := {
  (** a module class, and its [is_compatible_with_romtype] *)
  Cls : Type;
  is_compatible_with_romtype : Cls → string → bool;
  (** [coilsnake.model.common.blocks.ROM_TYPE_NAME_UNKNOWN] *)
  ROM_TYPE_NAME_UNKNOWN : string;
  (** the file system and whatever else imports can touch *)
  World : Type;
  os_path_dirname : string → string;
  os_path_join : string → string → string;
  os_path_exists : string → World → bool;
  os_path_isfile : string → World → bool;
  (** [os.makedirs(name, exist_ok=...)] *)
  os_makedirs : string → bool → M World unit;
  os_remove : string → M World unit;
  (** [open(name, mode, encoding=..., newline=...)] *)
  builtin_open : string → string → option string → option string → M World File;
  (** [open_asset(name)], as the text the asset holds *)
  open_asset : string → M World string;
  (** [__import__(name, globals(), locals(), fromlist)], as the
      [__dict__] of the module it returns *)
  builtin_import : string → list string → M World (gmap string Cls);
  (** [importlib.util.find_spec(name)] under a given [sys.path]: whether
      a spec was found *)
  importlib_find_spec : string → list string → M World bool;
  (** [importlib.import_module(name)] under a given [sys.path] *)
  importlib_import_module : string → list string → M World (gmap string Cls);
  yml_load : File → M World SnakeData;
  yml_dump : SnakeData → File → M World unit }.

(** A module object, by the classes of its [__dict__]. *)
Abbreviation PyModule := (gmap string Cls).

(** The module registry: (name, class) pairs in manifest order. *)
Abbreviation Registry := (list (string * Cls)).

Section Interpreter.
Context `{Host}.

(** The process-wide state the module reads and writes: [sys.path],
    [sys.modules], the class attribute [ModuleConfig._DEFAULT_MODULES]
    ([None] until discovery has run) and the host's world. *)
Record Env : Type := {
  sys_path : list string;
  sys_modules : gmap string PyModule;
  _DEFAULT_MODULES : option Registry;
  world : World }.

Definition set_sys_path (p : list string) (e : Env) : Env :=
  {| sys_path := p; sys_modules := sys_modules e;
     _DEFAULT_MODULES := _DEFAULT_MODULES e; world := world e |}.
Definition set_sys_modules (m : gmap string PyModule) (e : Env) : Env :=
  {| sys_path := sys_path e; sys_modules := m;
     _DEFAULT_MODULES := _DEFAULT_MODULES e; world := world e |}.
Definition set_DEFAULT_MODULES (r : option Registry) (e : Env) : Env :=
  {| sys_path := sys_path e; sys_modules := sys_modules e;
     _DEFAULT_MODULES := r; world := world e |}.
Definition set_world (w : World) (e : Env) : Env :=
  {| sys_path := sys_path e; sys_modules := sys_modules e;
     _DEFAULT_MODULES := _DEFAULT_MODULES e; world := w |}.

(** Run a host operation on the world of the environment. *)
Definition in_world {A} (m : M World A) : M Env A :=
  λ e, let (r, w) := m (world e) in (r, set_world w e).
End Interpreter.

(** ** Format version of the descriptor *)

Definition FORMAT_VERSION : Z := 13.

Definition VERSION_NAMES : gmap Z string :=
  list_to_map
    [(1, "1.0"); (2, "1.1"); (3, "1.2"); (4, "1.3"); (5, "2.0.4");
     (6, "2.1"); (7, "2.2"); (8, "2.3.1"); (9, "3.33"); (10, "4.0");
     (11, "4.1"); (12, "4.2"); (13, "NEXT")]%Z.

Definition get_version_name (version : Z) : string :=
  match VERSION_NAMES !! version with
  | Some name => name
  | None => "Unknown Version"
  end.

Definition PROJECT_FILENAME : string := "Project.snake".

(** ** [class TempSysPathContext] *)

Section TempSysPath.
Context `{Host}.

(** [with TempSysPathContext(added_dir): body].  [__enter__] stores
    [sys.path] and puts [added_dir] in front of it; [__exit__] restores
    the stored list on both the normal and the exceptional exit, and
    returns [False], so an exception of the body goes on.
    ([importlib.invalidate_caches()] has no state in this model.) *)
Definition TempSysPathContext {A} (added_dir : string) (body : M Env A) : M Env A :=
  λ e, let stored_path := sys_path e in
       let (r, e') := body (set_sys_path (added_dir :: sys_path e) e) in
       (r, set_sys_path stored_path e').
End TempSysPath.

(** ** [class ModuleConfig] *)

Module ModuleConfig.

Definition LABEL : string := "module configuration".
Definition L_ENABLED : string := "enabled modules".
Definition L_DISABLED : string := "disabled modules".
Definition L_PROJ_SPECIFIC : string := "project-specific modules".

Record t : Type := {
  romtype : string;
  project_dir : string;
  enabled_module_names : list string;
  disabled_module_names : list string;
  project_specific_modules : list string }.

Definition set_enabled_module_names (l : list string) (self : t) : t :=
  {| romtype := romtype self; project_dir := project_dir self;
     enabled_module_names := l;
     disabled_module_names := disabled_module_names self;
     project_specific_modules := project_specific_modules self |}.
Definition set_disabled_module_names (l : list string) (self : t) : t :=
  {| romtype := romtype self; project_dir := project_dir self;
     enabled_module_names := enabled_module_names self;
     disabled_module_names := l;
     project_specific_modules := project_specific_modules self |}.

(** [d[key]] on a dict of the descriptor *)
Definition getitem {S A} (d : gmap string A) (key : string) : M S A :=
  match d !! key with
  | Some v => ret v
  | None => raise (KeyError key)
  end.

(** Truth value of [moduleconfig_dict]: [None] and the empty dict are
    false. *)
Definition dict_truth {A} (d : option (gmap string A)) : bool :=
  match d with
  | Some m => negb (bool_decide (m = ∅))
  | None => false
  end.

(** Truth value of a list, and of the cached registry. *)
Definition list_truth {A} (l : list A) : bool :=
  match l with [] => false | _ :: _ => true end.

Section with_host.
Context `{Host}.

(** The body of the [for line in f] loop of [_get_default_modules],
    run over the remaining lines with the [all_modules] built so
    far.  [line[0]] raises [IndexError] on an empty string. *)
Fixpoint read_modulelist (lines : list string) (all_modules : Registry)
  : M Env Registry :=
  match lines with
  | [] => ret all_modules
  | line :: lines' =>
      let line := rstrip_newline line in
      match line with
      | EmptyString => raise (IndexError "string index out of range")
      | String c _ =>
          if Ascii.eqb c "#" then read_modulelist lines' all_modules
          else
            let components := split "." line in
            mod_ ← in_world (builtin_import ("coilsnake.modules." +:+ line)
                              [last_component components]);
            cls ← getitem mod_ (last_component components);
            read_modulelist lines' (all_modules ++ [(line, cls)])
      end
  end.

(** [ModuleConfig._get_default_modules()] *)
Definition _get_default_modules : M Env Registry :=
  cached ← gets _DEFAULT_MODULES;
  if list_truth (default [] cached) then ret (default [] cached)
  else
    text ← in_world (open_asset "modulelist.txt");
    all_modules ← read_modulelist (file_lines text) [];
    modify (set_DEFAULT_MODULES (Some all_modules));;
    ret all_modules.

Definition __init__ (romtype : string) (project_dir : string)
    (moduleconfig_dict : option (gmap string (list string))) : M Env t :=
  if dict_truth moduleconfig_dict then
    let d := default ∅ moduleconfig_dict in
    enabled ← getitem d L_ENABLED;
    disabled ← getitem d L_DISABLED;
    proj_specific ← getitem d L_PROJ_SPECIFIC;
    ret {| romtype := romtype; project_dir := project_dir;
           enabled_module_names := enabled;
           disabled_module_names := disabled;
           project_specific_modules := proj_specific |}
  else
    mods ← _get_default_modules;
    ret {| romtype := romtype; project_dir := project_dir;
           enabled_module_names :=
             ((filter (λ nc, is_compatible_with_romtype nc.2 romtype) mods).*1);
           disabled_module_names := [];
           project_specific_modules := [] |}.

Definition to_dict (self : t) : gmap string (list string) :=
  <[L_ENABLED := enabled_module_names self]>
    (<[L_DISABLED := disabled_module_names self]>
       (<[L_PROJ_SPECIFIC := project_specific_modules self]> ∅)).

Definition get_default_modules (self : t) : M Env Registry :=
  _get_default_modules.

Definition class_is_compatible (self : t) (cls : Cls) : bool :=
  is_compatible_with_romtype cls (romtype self).

Definition filter_to_compatible (self : t) (mods : Registry) : Registry :=
  filter (λ nc, class_is_compatible self nc.2) mods.

Definition get_compatible_default_module_names (self : t) : M Env (list string) :=
  mods ← get_default_modules self;
  ret ((filter_to_compatible self mods).*1).

(** Returns the object after the call: [target_list += missing]
    extends the chosen list in place. *)
Definition add_missing_defaults (self : t) (enabled : bool) : M Env t :=
  let present : gset string :=
    list_to_set (enabled_module_names self)
      ∪ list_to_set (disabled_module_names self) in
  mods ← get_default_modules self;
  let missing :=
    filter (λ name, name ∉ present) ((filter_to_compatible self mods).*1) in
  if enabled
  then ret (set_enabled_module_names (enabled_module_names self ++ missing) self)
  else ret (set_disabled_module_names (disabled_module_names self ++ missing) self).

Definition load_project_specific_module (self : t) (module_name : string)
  : M Env Cls :=
  mods ← gets sys_modules;
  mod_ ← match mods !! module_name with
        | Some m => ret (Some m)
        | None =>
            TempSysPathContext
              (os_path_join (project_dir self) "CustomModules")
              (path ← gets sys_path;
               spec ← in_world (importlib_find_spec module_name path);
               if spec : bool then
                 m ← in_world (importlib_import_module module_name path);
                 modify (λ e, set_sys_modules (<[module_name := m]> (sys_modules e)) e);;
                 ret (Some m)
               else ret None)
        end;
  match mod_ with
  | None => raise (ValueError ("Cannot locate module '" +:+ module_name +:+ "'"))
  | Some m =>
      let cls_name := rpartition_last "." module_name in
      match m !! cls_name with
      | Some cls => ret cls
      | None =>
          raise (ValueError ("Module '" +:+ module_name
                               +:+ "' must have a class named '" +:+ cls_name +:+ "'"))
      end
  end.

Definition get_project_modules (self : t) : M Env Registry :=
  let enabled : gset string := list_to_set (enabled_module_names self) in
  mods ← get_default_modules self;
  let project_modules :=
    filter (λ nc, nc.1 ∈ enabled ∧ class_is_compatible self nc.2) mods in
  loaded ← for_each (λ name, cls ← load_project_specific_module self name;
                              ret (name, cls))
                    (project_specific_modules self);
  ret (project_modules ++ loaded).

Definition upgrade (self : t) (old_version new_version : Z) : M Env unit :=
  if bool_decide (old_version < 13)%Z then
    defaults ← get_compatible_default_module_names self;
    assert (bool_decide (enabled_module_names self = defaults)) "";;
    assert (negb (list_truth (disabled_module_names self))) "";;
    assert (negb (list_truth (project_specific_modules self))) ""
  else
    raise (NotImplementedError
             ("Don't know how to upgrade from version " +:+ str_of_int old_version)).

End with_host.
End ModuleConfig.

(** ** [class Project] *)

Module Project.

(** [version] is [None] while the object has no such attribute. *)
Record t : Type := {
  romtype : string;
  _resources : Resources;
  moduleconfig : ModuleConfig.t;
  snake_filename : string;
  _dir_name : string;
  version : option Z }.

Definition set_resources (r : Resources) (self : t) : t :=
  {| romtype := romtype self; _resources := r;
     moduleconfig := moduleconfig self;
     snake_filename := snake_filename self; _dir_name := _dir_name self;
     version := version self |}.
Definition set_version (v : option Z) (self : t) : t :=
  {| romtype := romtype self; _resources := _resources self;
     moduleconfig := moduleconfig self;
     snake_filename := snake_filename self; _dir_name := _dir_name self;
     version := v |}.

(** Truth value of the [romtype] argument: [None] and the empty string
    are false. *)
Definition str_truth (s : option string) : bool :=
  match s with
  | Some (String _ _) => true
  | _ => false
  end.

Section with_host.
Context `{Host}.

(** What the [try] statement of [__init__] leaves in the attributes
    [romtype], [_resources] and [version], and in the local
    [moduleconfig_dict]. *)
Record Loaded : Type := {
  l_romtype : string;
  l_resources : Resources;
  l_version : option Z;
  l_moduleconfig_dict : option (gmap string (list string)) }.

(** The attributes assigned when the stored romtype is adopted. *)
Definition adopt (data : SnakeData) : M Env Loaded :=
  data_romtype ← from_option ret (raise (KeyError "romtype")) (d_romtype data);
  data_resources ← from_option ret (raise (KeyError "resources")) (d_resources data);
  ret {| l_romtype := data_romtype;
         l_resources := default ∅ data_resources;
         l_version := Some (default 1%Z (d_version data));
         l_moduleconfig_dict := d_moduleconfig data |}.

(** The body of the [with open(...)] block.  With a [romtype]
    argument the test reads [data["romtype"]] first. *)
Definition load_project (snake_filename : string) (romtype : option string)
  : M Env Loaded :=
  f ← in_world (builtin_open snake_filename "r" None None);
  data ← in_world (yml_load f);
  match romtype with
  | None => adopt data
  | Some r =>
      data_romtype ← from_option ret (raise (KeyError "romtype")) (d_romtype data);
      if bool_decide (r = data_romtype) then adopt data
      else ret {| l_romtype := r;
                  l_resources := ∅;
                  l_version := None;
                  l_moduleconfig_dict := None |}
  end.

(** The [except IOError] branch: the project file does not exist. *)
Definition new_project (dir_name : string) (romtype : option string)
  : M Env Loaded :=
  assert (str_truth romtype
            && negb (bool_decide (romtype = Some ROM_TYPE_NAME_UNKNOWN)))
         "Can't make new project of unknown type!";;
  in_world (os_makedirs dir_name true);;
  from_option
    (λ r, ret {| l_romtype := r;
                 l_resources := ∅;
                 l_version := None;
                 l_moduleconfig_dict := None |})
    (raise (AssertionError "Can't make new project of unknown type!"))
    romtype.

Definition __init__ (snake_filename : string) (romtype : option string)
  : M Env t :=
  let dir_name := os_path_dirname snake_filename in
  l ← try_except (load_project snake_filename romtype) is_OSError
                 (new_project dir_name romtype);
  mc ← ModuleConfig.__init__ (l_romtype l) dir_name (l_moduleconfig_dict l);
  ret {| romtype := l_romtype l;
         _resources := l_resources l;
         moduleconfig := mc;
         snake_filename := snake_filename;
         _dir_name := dir_name;
         version := l_version l |}.

(** Methods run on the pair of the object and the environment, so
    that an exception keeps the mutations made before it. *)
Definition Method (A : Type) : Type := M (t * Env) A.

Definition in_env {A} (m : M Env A) : Method A :=
  λ '(self, e), let (r, e') := m e in (r, (self, e')).
Definition self_ : Method t := gets fst.
Definition update_self (f : t → t) : Method unit :=
  modify (λ '(self, e), (f self, e)).
Definition when (c : bool) (m : Method unit) : Method unit :=
  if c then m else ret tt.

(** [k in d] *)
Definition contains {A} (d : gmap string A) (k : string) : bool :=
  bool_decide (is_Some (d !! k)).

Definition save : Method unit :=
  self ← self_;
  let tmp :=
    {| d_romtype := Some (romtype self);
       d_version := Some FORMAT_VERSION;
       d_moduleconfig := Some (ModuleConfig.to_dict (moduleconfig self));
       d_resources := None |} in
  f ← in_env (in_world (builtin_open (snake_filename self) "w" None None));
  in_env (in_world (yml_dump tmp f));;
  in_env (in_world (yml_dump {| d_romtype := None; d_version := None;
                                d_moduleconfig := None;
                                d_resources := Some (Some (_resources self)) |}
                             f)).

Definition get_resource (module_name resource_name : string)
    (extension : string) (mode : string)
    (encoding newline : option string) : Method File :=
  self ← self_;
  when (negb (contains (_resources self) module_name))
       (update_self (set_resources (<[module_name := ∅]> (_resources self))));;
  self ← self_;
  when (negb (contains (_resources self !!! module_name) resource_name))
       (update_self
          (set_resources
             (<[module_name :=
                  <[resource_name := resource_name +:+ "." +:+ extension]>
                    (_resources self !!! module_name)]>
                (_resources self))));;
  self ← self_;
  let fname :=
    os_path_join (_dir_name self)
                 ((_resources self !!! module_name) !!! resource_name) in
  dir_exists ← in_env (gets (λ e, os_path_exists (os_path_dirname fname) (world e)));
  when (negb dir_exists)
       (in_env (in_world (os_makedirs (os_path_dirname fname) false)));;
  in_env (in_world (builtin_open fname mode encoding newline)).

Definition delete_resource (module_name resource_name : string) : Method unit :=
  self ← self_;
  if negb (contains (_resources self) module_name) then
    raise (CoilSnakeError ("No such module " +:+ module_name))
  else if negb (contains (_resources self !!! module_name) resource_name) then
    raise (CoilSnakeError ("No such resource " +:+ resource_name
                             +:+ " in module " +:+ module_name))
  else
    let fname :=
      os_path_join (_dir_name self)
                   ((_resources self !!! module_name) !!! resource_name) in
    is_file ← in_env (gets (λ e, os_path_isfile fname (world e)));
    when is_file (in_env (in_world (os_remove fname)));;
    update_self
      (set_resources
         (<[module_name := delete resource_name (_resources self !!! module_name)]>
            (_resources self))).

Definition load_modules : Method Registry :=
  self ← self_;
  in_env (ModuleConfig.get_project_modules (moduleconfig self)).

Definition upgrade (old_version new_version : Z) : Method unit :=
  self ← self_;
  in_env (ModuleConfig.upgrade (moduleconfig self) old_version new_version);;
  update_self (set_version (Some new_version)).

(** Reading [self.version]: [AttributeError] while the attribute was
    never assigned. *)
Definition get_version : Method Z :=
  self ← self_;
  match version self with
  | Some v => ret v
  | None => raise (AttributeError "'Project' object has no attribute 'version'")
  end.

End with_host.
End Project.

(** ** Descriptor documents *)

(** The mapping a reader sees after [d1] and then [d2] were dumped to
    one file: the keys of both, those of [d2] winning. *)
Definition merge_data (d1 d2 : SnakeData) : SnakeData :=
  {| d_romtype := from_option Some (d_romtype d1) (d_romtype d2);
     d_version := from_option Some (d_version d1) (d_version d2);
     d_moduleconfig := from_option Some (d_moduleconfig d1) (d_moduleconfig d2);
     d_resources := from_option Some (d_resources d1) (d_resources d2) |}.

Definition empty_data : SnakeData :=
  {| d_romtype := None; d_version := None;
     d_moduleconfig := None; d_resources := None |}.

(** ** An in-memory host

    A small implementation of the interface, on which the model runs:
    files hold the mappings dumped into them, a module class is the list
    of the romtypes it supports. *)

Module MemHost.

Record MemWorld : Type := {
  files : gmap string (list SnakeData);
  dirs : gset string;
  assets : gmap string string;
  builtin_modules : gmap string (gmap string (list string));
  custom_modules : gmap string (gmap string (gmap string (list string))) }.

Definition set_files (f : gmap string (list SnakeData)) (w : MemWorld) : MemWorld :=
  {| files := f; dirs := dirs w; assets := assets w;
     builtin_modules := builtin_modules w; custom_modules := custom_modules w |}.
Definition set_dirs (d : gset string) (w : MemWorld) : MemWorld :=
  {| files := files w; dirs := d; assets := assets w;
     builtin_modules := builtin_modules w; custom_modules := custom_modules w |}.

Definition slash : Ascii.ascii := "/"%char.

Fixpoint join_with (sep : string) (l : list string) : string :=
  match l with
  | [] => ""
  | [x] => x
  | x :: l' => x +:+ sep +:+ join_with sep l'
  end.

Definition dirname (p : string) : string :=
  let head := join_with "/" (removelast (split slash p)) in
  match head, p with
  | EmptyString, String c _ => if Ascii.eqb c slash then "/" else ""
  | _, _ => head
  end.

Definition ends_with_slash (p : string) : bool :=
  bool_decide (last_component (split slash p) = "" ∧ p ≠ "").

Definition join (a b : string) : string :=
  match b with
  | String c _ =>
      if Ascii.eqb c slash then b
      else if bool_decide (a = "") || ends_with_slash a then a +:+ b
      else a +:+ "/" +:+ b
  | EmptyString => if bool_decide (a = "") || ends_with_slash a then a else a +:+ "/"
  end.

Definition exists_ (p : string) (w : MemWorld) : bool :=
  bool_decide (is_Some (files w !! p)) || bool_decide (p ∈ dirs w).
Definition isfile (p : string) (w : MemWorld) : bool :=
  bool_decide (is_Some (files w !! p)).

Definition makedirs (p : string) (exist_ok : bool) : M MemWorld unit :=
  λ w, if bool_decide (p = "") then (Raise (OSError "No such file or directory"), w)
       else if bool_decide (p ∈ dirs w)
       then (if exist_ok then Ok tt else Raise (OSError "File exists"), w)
       else (Ok tt, set_dirs ({[p]} ∪ dirs w) w).

Definition remove (p : string) : M MemWorld unit :=
  λ w, if isfile p w then (Ok tt, set_files (delete p (files w)) w)
       else (Raise (OSError "No such file or directory"), w).

Definition open_ (p mode : string) (encoding newline : option string)
  : M MemWorld File :=
  λ w, let f := {| f_name := p; f_mode := mode |} in
       match mode with
       | String "w" _ =>
           if bool_decide (dirname p = "") || bool_decide (dirname p ∈ dirs w)
           then (Ok f, set_files (<[p := []]> (files w)) w)
           else (Raise (OSError "No such file or directory"), w)
       | _ =>
           if isfile p w then (Ok f, w)
           else (Raise (OSError "No such file or directory"), w)
       end.

Definition asset (name : string) : M MemWorld string :=
  λ w, match assets w !! name with
       | Some text => (Ok text, w)
       | None => (Raise (OSError "No such file or directory"), w)
       end.

Definition import_ (name : string) (fromlist : list string)
  : M MemWorld (gmap string (list string)) :=
  λ w, match builtin_modules w !! name with
       | Some m => (Ok m, w)
       | None => (Raise (ImportError ("No module named '" +:+ name +:+ "'")), w)
       end.

Fixpoint find_custom (name : string) (path : list string) (w : MemWorld)
  : option (gmap string (list string)) :=
  match path with
  | [] => None
  | d :: path' =>
      match custom_modules w !! d ≫= (.!! name) with
      | Some m => Some m
      | None => find_custom name path' w
      end
  end.

Definition find_spec (name : string) (path : list string) : M MemWorld bool :=
  λ w, (Ok (bool_decide (is_Some (find_custom name path w))), w).

Definition import_module (name : string) (path : list string)
  : M MemWorld (gmap string (list string)) :=
  λ w, match find_custom name path w with
       | Some m => (Ok m, w)
       | None => (Raise (ImportError ("No module named '" +:+ name +:+ "'")), w)
       end.

Definition load (f : File) : M MemWorld SnakeData :=
  λ w, match files w !! f_name f with
       | Some blocks => (Ok (foldl merge_data empty_data blocks), w)
       | None => (Raise (OSError "No such file or directory"), w)
       end.

Definition dump (d : SnakeData) (f : File) : M MemWorld unit :=
  λ w, match files w !! f_name f with
       | Some blocks => (Ok tt, set_files (<[f_name f := blocks ++ [d]]> (files w)) w)
       | None => (Raise (OSError "No such file or directory"), w)
       end.

#[global] Instance host : Host := {|
  Cls := list string;
  is_compatible_with_romtype := λ cls romtype, bool_decide (romtype ∈ cls);
  ROM_TYPE_NAME_UNKNOWN := "Unknown";
  World := MemWorld;
  os_path_dirname := dirname;
  os_path_join := join;
  os_path_exists := exists_;
  os_path_isfile := isfile;
  os_makedirs := makedirs;
  os_remove := remove;
  builtin_open := open_;
  open_asset := asset;
  builtin_import := import_;
  importlib_find_spec := find_spec;
  importlib_import_module := import_module;
  yml_load := load;
  yml_dump := dump |}.

(** A registry of three modules: two for Earthbound, one for Super
    Mario Bros. *)
Definition modulelist : string :=
  "# the modules, in load order" +:+ String newline
  ("eb.MapModule" +:+ String newline
  ("smb.StagesModule" +:+ String newline
  ("eb.SpriteModule" +:+ String newline ""))).

Definition world0 : MemWorld :=
  {| files := ∅;
     dirs := ∅;
     assets := {[ "modulelist.txt" := modulelist ]};
     builtin_modules :=
       {[ "coilsnake.modules.eb.MapModule" := {[ "MapModule" := ["Earthbound"] ]};
          "coilsnake.modules.smb.StagesModule" := {[ "StagesModule" := ["Super Mario Bros"] ]};
          "coilsnake.modules.eb.SpriteModule" := {[ "SpriteModule" := ["Earthbound"] ]} ]};
     custom_modules := ∅ |}.

Definition env0 : Env :=
  {| sys_path := ["/usr/lib/python3"]; sys_modules := ∅;
     _DEFAULT_MODULES := None; world := world0 |}.

Definition registry0 : Registry :=
  [("eb.MapModule", ["Earthbound"]);
   ("smb.StagesModule", ["Super Mario Bros"]);
   ("eb.SpriteModule", ["Earthbound"])].


(** The environment once the registry was discovered. *)
Definition env1 : Env :=
  {| sys_path := ["/usr/lib/python3"]; sys_modules := ∅;
     _DEFAULT_MODULES := Some registry0; world := world0 |}.

(** A new Earthbound project in the directory [proj], as [__init__]
    makes it, and the environment it leaves. *)
Definition config0 : ModuleConfig.t :=
  {| ModuleConfig.romtype := "Earthbound";
     ModuleConfig.project_dir := "proj";
     ModuleConfig.enabled_module_names := ["eb.MapModule"; "eb.SpriteModule"];
     ModuleConfig.disabled_module_names := [];
     ModuleConfig.project_specific_modules := [] |}.

Definition project0 : Project.t :=
  {| Project.romtype := "Earthbound";
     Project._resources := ∅;
     Project.moduleconfig := config0;
     Project.snake_filename := "proj/Project.snake";
     Project._dir_name := "proj";
     Project.version := None |}.

Definition env_proj : Env := set_world (set_dirs {[ "proj" ]} world0) env1.

(** The project after some work: a module disabled, a resource
    registered, loaded from a version 9 descriptor. *)
Definition config1 : ModuleConfig.t :=
  {| ModuleConfig.romtype := "Earthbound";
     ModuleConfig.project_dir := "proj";
     ModuleConfig.enabled_module_names := ["eb.MapModule"];
     ModuleConfig.disabled_module_names := ["eb.SpriteModule"];
     ModuleConfig.project_specific_modules := [] |}.

Definition project1 : Project.t :=
  {| Project.romtype := "Earthbound";
     Project._resources := {[ "eb.MapModule" := {[ "map_tiles" := "map_tiles.map" ]} ]};
     Project.moduleconfig := config1;
     Project.snake_filename := "proj/Project.snake";
     Project._dir_name := "proj";
     Project.version := Some 9%Z |}.

(** The environment after [project1] was saved. *)
Definition env_saved : Env := (Project.save (project1, env_proj)).2.2.

(** What the saved descriptor decodes to. *)
Definition data_saved : SnakeData :=
  {| d_romtype := Some "Earthbound";
     d_version := Some 13%Z;
     d_moduleconfig := Some (ModuleConfig.to_dict config1);
     d_resources := Some (Some (Project._resources project1)) |}.

(** A configuration saved before [eb.SpriteModule] joined the
    registry. *)
Definition config_stale : ModuleConfig.t :=
  {| ModuleConfig.romtype := "Earthbound";
     ModuleConfig.project_dir := "proj";
     ModuleConfig.enabled_module_names := ["eb.MapModule"];
     ModuleConfig.disabled_module_names := [];
     ModuleConfig.project_specific_modules := [] |}.

(** [project0] with the default entry of one resource registered. *)
Definition project0_sprites : Project.t :=
  Project.set_resources {[ "eb.SpriteModule" := {[ "sprites" := "sprites.dat" ]} ]}
                        project0.

(** A project with a module of its own under [proj/CustomModules]. *)
Definition env_custom : Env :=
  set_world
    {| files := ∅; dirs := {[ "proj" ]}; assets := assets world0;
       builtin_modules := builtin_modules world0;
       custom_modules :=
         {[ "proj/CustomModules" :=
              {[ "mymod.Thing" := {[ "Thing" := ["Earthbound"] ]} ]} ]} |}
    env1.

Definition config_custom : ModuleConfig.t :=
  {| ModuleConfig.romtype := "Earthbound";
     ModuleConfig.project_dir := "proj";
     ModuleConfig.enabled_module_names := ["eb.SpriteModule"; "smb.StagesModule"];
     ModuleConfig.disabled_module_names := ["eb.MapModule"];
     ModuleConfig.project_specific_modules := ["mymod.Thing"] |}.

(** A manifest with a blank line between two module names. *)
Definition modulelist_blank : string :=
  "# the modules, in load order" +:+ String newline
  ("eb.MapModule" +:+ String newline
  (String newline
  ("eb.SpriteModule" +:+ String newline ""))).

Definition env_blank : Env :=
  {| sys_path := ["/usr/lib/python3"]; sys_modules := ∅;
     _DEFAULT_MODULES := None;
     world := {| files := ∅; dirs := ∅;
                 assets := {[ "modulelist.txt" := modulelist_blank ]};
                 builtin_modules := builtin_modules world0;
                 custom_modules := ∅ |} |}.
End MemHost.

(** ** Vocabulary of the specification *)

Section Vocabulary.
Context `{Host}.

(** The registry [R] is cached: [_DEFAULT_MODULES] holds it and it is
    a true value, so [_get_default_modules] returns it without
    discovering again. *)
Definition cached_registry (e : Env) (R : Registry) : Prop :=
  _DEFAULT_MODULES e = Some R ∧ ModuleConfig.list_truth R = true.

(** The entries of the registry compatible with target type [T], in
    registry order. *)
Definition compatible_subset (T : string) (R : Registry) : Registry :=
  filter (λ nc, is_compatible_with_romtype nc.2 T) R.

(** In the resolved list [res], registry modules come first and the
    project-specific modules of [self] follow, in their list order. *)
Definition builtin_first (self : ModuleConfig.t) (R res : Registry) : Prop :=
  ∃ builtin specific,
    res = builtin ++ specific
    ∧ builtin `sublist_of` R
    ∧ specific.*1 = ModuleConfig.project_specific_modules self.

(** The three lists of a configuration are those of a fresh one for
    target type [T]. *)
Definition is_default_config (T : string) (R : Registry) (self : ModuleConfig.t) : Prop :=
  ModuleConfig.enabled_module_names self = (compatible_subset T R).*1
  ∧ ModuleConfig.disabled_module_names self = []
  ∧ ModuleConfig.project_specific_modules self = [].

(** The names [add_missing_defaults] has to add: the compatible
    registry names in neither [enabled] nor [disabled], in registry
    order. *)
Definition missing_defaults (R : Registry) (self : ModuleConfig.t) : list string :=
  filter (λ name, (name ∉ ModuleConfig.enabled_module_names self)
                  ∧ (name ∉ ModuleConfig.disabled_module_names self))
         ((compatible_subset (ModuleConfig.romtype self) R).*1).

(** What is dumped can be read back: after a file was opened for
    writing and two mappings were dumped into it, opening it for
    reading and loading it gives the two mappings merged.  This is the
    assumption on the YAML codec and the file system under which a
    saved descriptor can be reopened. *)
Definition codec_round_trip : Prop :=
  ∀ (name : string) (d1 d2 : SnakeData) (f : File) (w w1 w2 w3 : World),
    builtin_open name "w" None None w = (Ok f, w1) →
    yml_dump d1 f w1 = (Ok tt, w2) →
    yml_dump d2 f w2 = (Ok tt, w3) →
    ∃ g w4 w5,
      builtin_open name "r" None None w3 = (Ok g, w4)
      ∧ yml_load g w4 = (Ok (merge_data d1 d2), w5).

(** The version a descriptor file gives a project opened from it:
    that of the decoded file, 1 when the file has none, provided the
    file can be opened and decoded and no other target type than the
    stored one is requested; no version in every other case. *)
Definition stored_version (snake_filename : string) (requested : option string)
    (e : Env) : option Z :=
  match builtin_open snake_filename "r" None None (world e) with
  | (Ok f, w) =>
      match yml_load f w with
      | (Ok data, _) =>
          match requested with
          | Some r =>
              if bool_decide (d_romtype data = Some r)
              then Some (default 1%Z (d_version data)) else None
          | None => Some (default 1%Z (d_version data))
          end
      | (Raise _, _) => None
      end
  | (Raise _, _) => None
  end.

(** The relative path registered for a (module, resource) pair. *)
Definition registered (res : Resources) (module_name resource_name : string)
  : option string :=
  res !! module_name ≫= (.!! resource_name).

(** The registry after the pair was given its default file name
    [resource_name + "." + extension], unless it had a path already. *)
Definition register_default (res : Resources)
    (module_name resource_name extension : string) : Resources :=
  match registered res module_name resource_name with
  | Some _ => res
  | None =>
      <[module_name :=
          <[resource_name := resource_name +:+ "." +:+ extension]>
            (default ∅ (res !! module_name))]> res
  end.

(** The registry without the pair. *)
Definition unregister (res : Resources) (module_name resource_name : string)
  : Resources :=
  <[module_name := delete resource_name (default ∅ (res !! module_name))]> res.

(** Opening the file [fname] the way [get_resource] does once the path
    is resolved: the missing parent directories are made first. *)
Definition open_resolved (fname mode : string) (encoding newline : option string)
  : M Env File :=
  λ e, if os_path_exists (os_path_dirname fname) (world e)
       then in_world (builtin_open fname mode encoding newline) e
       else match in_world (os_makedirs (os_path_dirname fname) false) e with
            | (Ok _, e') => in_world (builtin_open fname mode encoding newline) e'
            | (Raise x, e') => (Raise x, e')
            end.
End Vocabulary.

(** A manifest line is blank when nothing is left of it once the
    newline is stripped, and a comment when it starts with [#]. *)
Definition is_blank (line : string) : Prop := rstrip_newline line = "".

Definition is_comment (line : string) : bool :=
  match rstrip_newline line with
  | String c _ => Ascii.eqb c "#"
  | EmptyString => false
  end.

(** ** Further vocabulary *)

Section MoreVocabulary.
Context `{Host}.

(** The registry entries [get_project_modules] selects for a
    configuration: the name is enabled and the class is compatible with
    the target type. *)
Definition enabled_compatible (self : ModuleConfig.t) (R : Registry) : Registry :=
  filter (λ nc, nc.1 ∈ ModuleConfig.enabled_module_names self
                ∧ is_compatible_with_romtype nc.2 (ModuleConfig.romtype self))
         R.

(** The configuration [ModuleConfig.__init__] derives without a stored
    dict. *)
Definition fresh_config (T dir : string) (R : Registry) : ModuleConfig.t :=
  {| ModuleConfig.romtype := T;
     ModuleConfig.project_dir := dir;
     ModuleConfig.enabled_module_names := (compatible_subset T R).*1;
     ModuleConfig.disabled_module_names := [];
     ModuleConfig.project_specific_modules := [] |}.

(** No name is both enabled and disabled. *)
Definition disjoint_lists (self : ModuleConfig.t) : Prop :=
  ∀ name, name ∈ ModuleConfig.enabled_module_names self →
          name ∉ ModuleConfig.disabled_module_names self.

(** Opening the descriptor file for reading and decoding it, as the
    [with] statement of [Project.__init__] does. *)
Definition read_descriptor (snake_filename : string) : M World SnakeData :=
  λ w, match builtin_open snake_filename "r" None None w with
       | (Ok f, w1) => yml_load f w1
       | (Raise x, w1) => (Raise x, w1)
       end.

(** The project object [Project.__init__] builds. *)
Definition project_of (snake_filename romtype : string) (resources : Resources)
    (mc : ModuleConfig.t) (version : option Z) : Project.t :=
  {| Project.romtype := romtype;
     Project._resources := resources;
     Project.moduleconfig := mc;
     Project.snake_filename := snake_filename;
     Project._dir_name := os_path_dirname snake_filename;
     Project.version := version |}.
End MoreVocabulary.

(** The module names of a manifest: its lines that are not comments,
    newline stripped, in order. *)
Definition manifest_names (text : string) : list string :=
  rstrip_newline <$> filter (λ l, is_comment l = false) (file_lines text).

(** ** Further cases on the in-memory host *)

Module MemCases.

(** A configuration that enables a module of another target type and a
    name the registry does not have. *)
Definition config_mixed : ModuleConfig.t :=
  {| ModuleConfig.romtype := "Earthbound";
     ModuleConfig.project_dir := "proj";
     ModuleConfig.enabled_module_names :=
       ["smb.StagesModule"; "eb.MapModule"; "eb.GoneModule"];
     ModuleConfig.disabled_module_names := [];
     ModuleConfig.project_specific_modules := [] |}.

(** A stored block with one of its three keys. *)
Definition dict_partial : gmap string (list string) :=
  {[ ModuleConfig.L_ENABLED := ["eb.MapModule"] ]}.

(** The environment after the project-specific module was loaded. *)
Definition env_loaded : Env :=
  (ModuleConfig.load_project_specific_module
     MemHost.config_custom "mymod.Thing" MemHost.env_custom).2.

(** A module under [proj/CustomModules] without the class [Thing]. *)
Definition env_malformed : Env :=
  set_world
    {| MemHost.files := ∅; MemHost.dirs := {[ "proj" ]};
       MemHost.assets := MemHost.assets MemHost.world0;
       MemHost.builtin_modules := MemHost.builtin_modules MemHost.world0;
       MemHost.custom_modules :=
         {[ "proj/CustomModules" :=
              {[ "mymod.Thing" := {[ "Other" := ["Earthbound"] ]} ]} ]} |}
    MemHost.env1.

(** The cache holding an empty registry. *)
Definition env_empty_cache : Env := set_DEFAULT_MODULES (Some []) MemHost.env0.

(** The classes the three modules of the manifest resolve to, and the
    worlds in which they do. *)
Definition cls_of0 (name : string) : list string :=
  if bool_decide (name = "smb.StagesModule") then ["Super Mario Bros"] else ["Earthbound"].

Definition same_modules (w : MemHost.MemWorld) : Prop :=
  MemHost.builtin_modules w = MemHost.builtin_modules MemHost.world0.

(** A version 9 descriptor: no module configuration block, a
    [resources:] key without value. *)
Definition data_old : SnakeData :=
  {| d_romtype := Some "Earthbound"; d_version := Some 9%Z;
     d_moduleconfig := None; d_resources := Some None |}.

Definition env_old : Env :=
  set_world
    (MemHost.set_files {[ "proj/Project.snake" := [data_old] ]}
       (MemHost.set_dirs {[ "proj" ]} MemHost.world0))
    MemHost.env1.

(** An empty descriptor file. *)
Definition env_empty_file : Env :=
  set_world
    (MemHost.set_files {[ "proj/Project.snake" := [] ]}
       (MemHost.set_dirs {[ "proj" ]} MemHost.world0))
    MemHost.env1.

(** A host on which files cannot be removed and descriptors cannot be
    parsed. *)
Definition faulty_host : Host :=
  {| Cls := list string;
     is_compatible_with_romtype := λ cls romtype, bool_decide (romtype ∈ cls);
     ROM_TYPE_NAME_UNKNOWN := "Unknown";
     World := MemHost.MemWorld;
     os_path_dirname := MemHost.dirname;
     os_path_join := MemHost.join;
     os_path_exists := MemHost.exists_;
     os_path_isfile := MemHost.isfile;
     os_makedirs := MemHost.makedirs;
     os_remove := λ p w, (Raise (OSError "Permission denied"), w);
     builtin_open := MemHost.open_;
     open_asset := MemHost.asset;
     builtin_import := MemHost.import_;
     importlib_find_spec := MemHost.find_spec;
     importlib_import_module := MemHost.import_module;
     yml_load := λ f w, (Raise (OtherException "could not parse the descriptor"), w);
     yml_dump := MemHost.dump |}.

Definition faulty_env : @Env faulty_host :=
  @Build_Env faulty_host [] ∅ (Some MemHost.registry0)
    (MemHost.set_files
       {[ "proj/Project.snake" := [MemHost.data_saved];
          "proj/map_tiles.map" := [] ]}
       (MemHost.set_dirs {[ "proj" ]} MemHost.world0)).


(** The registry cached while the manifest on disk has changed. *)
Definition env_manifest_changed : Env :=
  set_world (world MemHost.env_blank) MemHost.env1.

End MemCases.

(** * Properties *)

(** ** Generic facts *)

Lemma filter_ext_in {A} (P Q : A → Prop)
    `{!∀ x, Decision (P x), !∀ x, Decision (Q x)} (l : list A) :
  (∀ x, x ∈ l → P x ↔ Q x) → filter P l = filter Q l.
Proof.
  induction l as [|x l IH]; intros HPQ; [done|].
  rewrite !filter_cons.
  assert (filter P l = filter Q l) as ->.
  { apply IH. intros y Hy. apply HPQ. by right. }
  destruct (decide (P x)) as [HP|HP], (decide (Q x)) as [HQ|HQ]; try done.
  - destruct HQ. apply HPQ; [by left|done].
  - destruct HP. apply HPQ; [by left|done].
Qed.

Lemma for_each_names {S A} (f : string → M S A) (l : list string) s ys s' :
  for_each (λ name, y ← f name; ret (name, y)) l s = (Ok ys, s') → ys.*1 = l.
Proof.
  revert s ys. induction l as [|x l IH]; intros s ys; simpl.
  - by intros [= <- <-].
  - cbv [mbind M_bind bind mret M_ret ret].
    destruct (f x s) as [[y|?] s1]; [|discriminate].
    destruct (for_each _ l s1) as [[zs|?] s2] eqn:Hl; [|discriminate].
    intros [= <- <-]. simpl. f_equal. by eapply IH.
Qed.

(** [sys.path] is restored on every exit of the [with] block. *)
Lemma TempSysPathContext_restores `{Host} {A} added_dir (body : M Env A) e :
  sys_path (TempSysPathContext added_dir body e).2 = sys_path e.
Proof. unfold TempSysPathContext. by destruct (body _) as [r e']. Qed.

(** ** The module registry *)

Section RegistryFacts.
Context `{Host}.

Lemma get_default_modules_cached e R :
  cached_registry e R → ModuleConfig._get_default_modules e = (Ok R, e).
Proof.
  intros [Hc Ht]. unfold ModuleConfig._get_default_modules.
  cbv [mbind M_bind bind gets]. rewrite Hc. simpl. by rewrite Ht.
Qed.

(** A discovery that succeeds with at least one module caches what it
    returns. *)
Lemma discovery_caches e e' R :
  ModuleConfig._get_default_modules e = (Ok R, e') →
  ModuleConfig.list_truth R = true →
  cached_registry e' R.
Proof.
  unfold ModuleConfig._get_default_modules.
  cbv [mbind M_bind bind gets modify mret M_ret ret].
  destruct (ModuleConfig.list_truth (default [] (_DEFAULT_MODULES e))) eqn:Hc.
  - intros [= <- <-] Ht. split; [|done].
    destruct (_DEFAULT_MODULES e); [done|discriminate].
  - destruct (in_world _ e) as [[text|x] e1]; [|discriminate].
    destruct (ModuleConfig.read_modulelist _ _ e1) as [[all|x] e2]; [|discriminate].
    intros [= <- <-] Ht. by split.
Qed.
End RegistryFacts.

(** ** Module configuration *)

Section ModuleConfigFacts.
Context `{Host}.

Lemma init_fresh e R T dir :
  cached_registry e R →
  ModuleConfig.__init__ T dir None e =
    (Ok {| ModuleConfig.romtype := T; ModuleConfig.project_dir := dir;
           ModuleConfig.enabled_module_names := (compatible_subset T R).*1;
           ModuleConfig.disabled_module_names := [];
           ModuleConfig.project_specific_modules := [] |}, e).
Proof.
  intros HR. unfold ModuleConfig.__init__. simpl.
  cbv [mbind M_bind bind]. by rewrite (get_default_modules_cached e R).
Qed.

Lemma get_compatible_default_module_names_cached self e R :
  cached_registry e R →
  ModuleConfig.get_compatible_default_module_names self e =
    (Ok (compatible_subset (ModuleConfig.romtype self) R).*1, e).
Proof.
  intros HR. unfold ModuleConfig.get_compatible_default_module_names,
    ModuleConfig.get_default_modules.
  cbv [mbind M_bind bind]. by rewrite (get_default_modules_cached e R).
Qed.

(** Whatever the configuration, the modules of the registry come
    before the project-specific ones in what [get_project_modules]
    returns. *)
Lemma get_project_modules_builtin_first self e R res e' :
  cached_registry e R →
  ModuleConfig.get_project_modules self e = (Ok res, e') →
  builtin_first self R res.
Proof.
  intros HR. unfold ModuleConfig.get_project_modules, ModuleConfig.get_default_modules.
  cbv [mbind M_bind bind]. rewrite (get_default_modules_cached e R HR).
  destruct (for_each _ _ e) as [[loaded|?] e1] eqn:Hl; [|discriminate].
  intros [= <- <-]. eexists _, loaded. split; [done|]. split.
  - apply sublist_filter.
  - eapply (for_each_names (ModuleConfig.load_project_specific_module self)), Hl.
Qed.

(** C1. A configuration constructed without stored descriptor resolves
    to exactly the registry entries compatible with its target type,
    in registry order; no registry entry is repeated, no name occurs
    twice when the names of the registry are unique, and the registry
    modules precede the (here absent) project-specific ones. *)
Theorem fresh_config_resolves_compatible_subset e R T dir :
  cached_registry e R →
  ∃ self,
    ModuleConfig.__init__ T dir None e = (Ok self, e)
    ∧ ModuleConfig.get_project_modules self e = (Ok (compatible_subset T R), e)
    ∧ compatible_subset T R `sublist_of` R
    ∧ (NoDup R.*1 → NoDup (compatible_subset T R).*1)
    ∧ builtin_first self R (compatible_subset T R).
Proof.
  intros HR. eexists. split; [by apply init_fresh|].
  assert (ModuleConfig.get_project_modules
            {| ModuleConfig.romtype := T; ModuleConfig.project_dir := dir;
               ModuleConfig.enabled_module_names := (compatible_subset T R).*1;
               ModuleConfig.disabled_module_names := [];
               ModuleConfig.project_specific_modules := [] |} e
          = (Ok (compatible_subset T R), e)) as Hget.
  { unfold ModuleConfig.get_project_modules, ModuleConfig.get_default_modules.
    cbv [mbind M_bind bind]. rewrite (get_default_modules_cached e R HR).
    simpl. cbv [mret M_ret ret]. rewrite app_nil_r. do 2 f_equal.
    apply filter_ext_in. intros [name cls] Hin. simpl.
    unfold ModuleConfig.class_is_compatible. simpl. split; [by intros [_ ?]|].
    intros Hc. split; [|done]. apply elem_of_list_to_set.
    apply (list_elem_of_fmap_2' fst _ (name, cls)); [|done].
    apply list_elem_of_filter. by split. }
  split; [done|]. split; [apply sublist_filter|]. split.
  - intros Hnd. eapply sublist_NoDup; [done|].
    apply fmap_sublist, sublist_filter.
  - by eapply get_project_modules_builtin_first.
Qed.
End ModuleConfigFacts.

Lemma filter_none {A} (P : A → Prop) `{!∀ x, Decision (P x)} (l : list A) :
  (∀ x, x ∈ l → ¬ P x) → filter P l = [].
Proof.
  induction l as [|x l IH]; intros HP; [done|].
  rewrite filter_cons_False; [|apply HP; by left].
  apply IH. intros y Hy. apply HP. by right.
Qed.

Section AddMissingDefaults.
Context `{Host}.

Lemma add_missing_defaults_cached self target_enabled e R :
  cached_registry e R →
  ModuleConfig.add_missing_defaults self target_enabled e =
    (Ok (if target_enabled
         then ModuleConfig.set_enabled_module_names
                (ModuleConfig.enabled_module_names self ++ missing_defaults R self) self
         else ModuleConfig.set_disabled_module_names
                (ModuleConfig.disabled_module_names self ++ missing_defaults R self) self),
     e).
Proof.
  intros HR. unfold ModuleConfig.add_missing_defaults, ModuleConfig.get_default_modules.
  cbv [mbind M_bind bind]. rewrite (get_default_modules_cached e R HR).
  assert (filter (λ name, name ∉ (list_to_set (ModuleConfig.enabled_module_names self)
                                    ∪ list_to_set (ModuleConfig.disabled_module_names self)
                                  : gset string))
                 ((ModuleConfig.filter_to_compatible self R).*1)
          = missing_defaults R self) as ->.
  { unfold missing_defaults. apply list_filter_iff. intros name.
    by rewrite not_elem_of_union, !elem_of_list_to_set. }
  by destruct target_enabled.
Qed.

(** Once the missing defaults were added to either list, none is
    missing. *)
Lemma missing_defaults_after self (target_enabled : bool) R :
  missing_defaults R
    (if target_enabled
     then ModuleConfig.set_enabled_module_names
            (ModuleConfig.enabled_module_names self ++ missing_defaults R self) self
     else ModuleConfig.set_disabled_module_names
            (ModuleConfig.disabled_module_names self ++ missing_defaults R self) self)
  = [].
Proof.
  apply filter_none. intros name Hname [Hne Hnd].
  assert (name ∈ missing_defaults R self) as Hm.
  { apply list_elem_of_filter. split.
    - destruct target_enabled; simpl in *.
      + apply not_elem_of_app in Hne as [? _]. done.
      + apply not_elem_of_app in Hnd as [? _]. done.
    - by destruct target_enabled. }
  destruct target_enabled; simpl in *.
  - apply Hne, elem_of_app. by right.
  - apply Hnd, elem_of_app. by right.
Qed.

(** C5. [add_missing_defaults] appends to the chosen list exactly the
    compatible registry names that are in neither [enabled] nor
    [disabled], in registry order, and leaves the other fields alone;
    a second call with the same flag changes nothing. *)
Theorem add_missing_defaults_appends_once self target_enabled e R :
  cached_registry e R →
  ∃ self',
    ModuleConfig.add_missing_defaults self target_enabled e = (Ok self', e)
    ∧ (if target_enabled
       then ModuleConfig.enabled_module_names self'
              = ModuleConfig.enabled_module_names self ++ missing_defaults R self
            ∧ ModuleConfig.disabled_module_names self'
              = ModuleConfig.disabled_module_names self
       else ModuleConfig.disabled_module_names self'
              = ModuleConfig.disabled_module_names self ++ missing_defaults R self
            ∧ ModuleConfig.enabled_module_names self'
              = ModuleConfig.enabled_module_names self)
    ∧ ModuleConfig.project_specific_modules self'
        = ModuleConfig.project_specific_modules self
    ∧ ModuleConfig.romtype self' = ModuleConfig.romtype self
    ∧ ModuleConfig.project_dir self' = ModuleConfig.project_dir self
    ∧ ModuleConfig.add_missing_defaults self' target_enabled e = (Ok self', e).
Proof.
  intros HR. eexists. split; [by apply add_missing_defaults_cached|].
  split; [by destruct target_enabled|].
  split; [by destruct target_enabled|].
  split; [by destruct target_enabled|].
  split; [by destruct target_enabled|].
  rewrite (add_missing_defaults_cached _ _ e R HR).
  rewrite missing_defaults_after.
  destruct self, target_enabled; simpl;
    unfold ModuleConfig.set_enabled_module_names,
           ModuleConfig.set_disabled_module_names; simpl;
    by rewrite !app_nil_r.
Qed.
End AddMissingDefaults.

Section Upgrade.
Context `{Host}.

(** C2, as the code has it.  From a version below 13 [upgrade] returns
    exactly when the three lists are those of a fresh configuration
    and raises [AssertionError] otherwise; from version 13 on it
    raises [NotImplementedError] with a message that names the old
    version only, so the outcome does not depend on the new one. *)
Theorem upgrade_outcome self (old_version new_version : Z) e R :
  cached_registry e R →
  ((old_version < 13)%Z →
     (is_default_config (ModuleConfig.romtype self) R self →
        ModuleConfig.upgrade self old_version new_version e = (Ok tt, e))
     ∧ (¬ is_default_config (ModuleConfig.romtype self) R self →
        ModuleConfig.upgrade self old_version new_version e
          = (Raise (AssertionError ""), e)))
  ∧ ((13 ≤ old_version)%Z →
       ModuleConfig.upgrade self old_version new_version e
         = (Raise (NotImplementedError
                     ("Don't know how to upgrade from version "
                        +:+ str_of_int old_version)), e)
       ∧ ∀ new_version',
           ModuleConfig.upgrade self old_version new_version' e
             = ModuleConfig.upgrade self old_version new_version e).
Proof.
  intros HR. split.
  - intros Hold. unfold ModuleConfig.upgrade.
    rewrite bool_decide_true by done.
    cbv [mbind M_bind bind].
    rewrite (get_compatible_default_module_names_cached self e R HR).
    unfold is_default_config. split.
    + intros (He & Hd & Hp). rewrite Hd, Hp.
      by rewrite bool_decide_true.
    + intros Hn. case_bool_decide as He; simpl; [|done].
      destruct (ModuleConfig.disabled_module_names self) eqn:Hd; simpl; [|done].
      destruct (ModuleConfig.project_specific_modules self) eqn:Hp; simpl; [|done].
      by destruct Hn.
  - intros Hold. unfold ModuleConfig.upgrade.
    rewrite bool_decide_false by lia. done.
Qed.
End Upgrade.

(** ** The project *)

Section SaveOpen.
Context `{Host}.

Lemma to_dict_truth mc : ModuleConfig.dict_truth (Some (ModuleConfig.to_dict mc)) = true.
Proof.
  unfold ModuleConfig.dict_truth, ModuleConfig.to_dict.
  rewrite bool_decide_false; [done|]. apply insert_non_empty.
Qed.

Lemma init_stored e T dir mc :
  ModuleConfig.__init__ T dir (Some (ModuleConfig.to_dict mc)) e =
    (Ok {| ModuleConfig.romtype := T; ModuleConfig.project_dir := dir;
           ModuleConfig.enabled_module_names := ModuleConfig.enabled_module_names mc;
           ModuleConfig.disabled_module_names := ModuleConfig.disabled_module_names mc;
           ModuleConfig.project_specific_modules :=
             ModuleConfig.project_specific_modules mc |}, e).
Proof.
  unfold ModuleConfig.__init__. rewrite to_dict_truth. simpl.
  unfold ModuleConfig.to_dict, ModuleConfig.getitem.
  cbv [mbind M_bind bind].
  rewrite lookup_insert_eq. simpl.
  rewrite lookup_insert_ne by done. rewrite lookup_insert_eq. simpl.
  rewrite !lookup_insert_ne by done. rewrite lookup_insert_eq. done.
Qed.

(** What [__init__] adopts from the two mappings [save] dumps. *)
Lemma adopt_saved self (s : Env) :
  Project.adopt
    (merge_data
       {| d_romtype := Some (Project.romtype self);
          d_version := Some FORMAT_VERSION;
          d_moduleconfig := Some (ModuleConfig.to_dict (Project.moduleconfig self));
          d_resources := None |}
       {| d_romtype := None; d_version := None; d_moduleconfig := None;
          d_resources := Some (Some (Project._resources self)) |}) s
  = (Ok {| Project.l_romtype := Project.romtype self;
           Project.l_resources := Project._resources self;
           Project.l_version := Some FORMAT_VERSION;
           Project.l_moduleconfig_dict :=
             Some (ModuleConfig.to_dict (Project.moduleconfig self)) |}, s).
Proof. done. Qed.

#[local] Arguments Project.adopt : simpl never.

(** C3. After a successful [save], opening the same path (without a
    target type, or with the saved one) gives a project with the saved
    target type, resource registry and module lists, and with version
    [FORMAT_VERSION], whatever the version was before saving. *)
Theorem save_open_round_trip self e self' e' requested :
  codec_round_trip →
  Project.save (self, e) = (Ok tt, (self', e')) →
  requested = None ∨ requested = Some (Project.romtype self) →
  ∃ p e'',
    Project.__init__ (Project.snake_filename self) requested e' = (Ok p, e'')
    ∧ Project.romtype p = Project.romtype self
    ∧ Project._resources p = Project._resources self
    ∧ ModuleConfig.enabled_module_names (Project.moduleconfig p)
        = ModuleConfig.enabled_module_names (Project.moduleconfig self)
    ∧ ModuleConfig.disabled_module_names (Project.moduleconfig p)
        = ModuleConfig.disabled_module_names (Project.moduleconfig self)
    ∧ ModuleConfig.project_specific_modules (Project.moduleconfig p)
        = ModuleConfig.project_specific_modules (Project.moduleconfig self)
    ∧ Project.version p = Some FORMAT_VERSION.
Proof.
  intros Hcodec Hsave Hreq.
  unfold Project.save in Hsave.
  cbv [mbind M_bind bind Project.self_ gets Project.in_env in_world] in Hsave.
  simpl in Hsave.
  destruct (builtin_open _ "w" None None (world e)) as [[f|?] w1] eqn:Hopen;
    [|discriminate].
  simpl in Hsave.
  destruct (yml_dump _ f w1) as [[[]|?] w2] eqn:Hd1; [|discriminate].
  simpl in Hsave.
  destruct (yml_dump _ f w2) as [[[]|?] w3] eqn:Hd2; [|discriminate].
  injection Hsave as <- <-.
  destruct (Hcodec _ _ _ _ _ _ _ _ Hopen Hd1 Hd2) as (g & w4 & w5 & Hr & Hl).
  unfold Project.__init__, try_except, Project.load_project.
  cbv [mbind M_bind bind in_world]. simpl.
  rewrite Hr. simpl. rewrite Hl. simpl.
  destruct Hreq as [-> | ->];
    rewrite ?bool_decide_true by done;
    rewrite adopt_saved; simpl; rewrite init_stored; simpl;
    by eexists _, _.
Qed.
End SaveOpen.

Section Open.
Context `{Host}.

Lemma adopt_inv data s r s' :
  Project.adopt data s = (r, s') →
  s' = s
  ∧ match r with
    | Ok l =>
        d_romtype data = Some (Project.l_romtype l)
        ∧ (∃ res, d_resources data = Some res ∧ Project.l_resources l = default ∅ res)
        ∧ Project.l_version l = Some (default 1%Z (d_version data))
        ∧ Project.l_moduleconfig_dict l = d_moduleconfig data
    | Raise x => is_OSError x = false
    end.
Proof.
  unfold Project.adopt. cbv [mbind M_bind bind].
  destruct (d_romtype data) as [rt|]; simpl; [|by intros [= <- <-]].
  destruct (d_resources data) as [res|]; simpl; [|by intros [= <- <-]].
  intros [= <- <-]. simpl. eauto 10.
Qed.

Lemma new_project_inv dir_name requested s l s' :
  Project.new_project dir_name requested s = (Ok l, s') →
  requested = Some (Project.l_romtype l)
  ∧ Project.l_romtype l ≠ "" ∧ Project.l_romtype l ≠ ROM_TYPE_NAME_UNKNOWN
  ∧ Project.l_resources l = ∅
  ∧ Project.l_version l = None
  ∧ Project.l_moduleconfig_dict l = None.
Proof.
  unfold Project.new_project, assert. cbv [mbind M_bind bind].
  destruct requested as [[|c r]|]; simpl; try discriminate.
  case_bool_decide as Hu; simpl; [discriminate|].
  destruct (in_world _ s) as [[[]|x] s1]; [|discriminate].
  intros [= <- <-]. simpl. repeat split; try done. congruence.
Qed.

(** A project object exists only when the [try] statement and the
    construction of the module configuration both went through. *)
Lemma init_inv snake_filename requested e p e' :
  Project.__init__ snake_filename requested e = (Ok p, e') →
  ∃ l e1 mc,
    try_except (Project.load_project snake_filename requested) is_OSError
               (Project.new_project (os_path_dirname snake_filename) requested) e
      = (Ok l, e1)
    ∧ ModuleConfig.__init__ (Project.l_romtype l) (os_path_dirname snake_filename)
                            (Project.l_moduleconfig_dict l) e1 = (Ok mc, e')
    ∧ p = {| Project.romtype := Project.l_romtype l;
             Project._resources := Project.l_resources l;
             Project.moduleconfig := mc;
             Project.snake_filename := snake_filename;
             Project._dir_name := os_path_dirname snake_filename;
             Project.version := Project.l_version l |}.
Proof.
  unfold Project.__init__. cbv [mbind M_bind bind].
  destruct (try_except _ _ _ e) as [[l|x] e1]; [|discriminate].
  destruct (ModuleConfig.__init__ _ _ _ e1) as [[mc|x] e2] eqn:Hmc; [|discriminate].
  intros [= <- <-]. exists l, e1, mc. by rewrite Hmc.
Qed.

Lemma init_Ok_version snake_filename requested e p e' :
  Project.__init__ snake_filename requested e = (Ok p, e') →
  Project.version p = stored_version snake_filename requested e.
Proof.
  intros (l & e1 & mc & Htry & _ & ->)%init_inv. simpl.
  revert Htry. unfold try_except, Project.load_project, stored_version.
  cbv [mbind M_bind bind in_world].
  destruct (builtin_open _ _ _ _ _) as [[f|x] w1]; simpl.
  - destruct (yml_load f w1) as [[data|x] w2]; simpl.
    + destruct requested as [r|].
      * destruct (d_romtype data) as [rt|] eqn:Hrt; simpl; [|discriminate].
        case_bool_decide as Hr; [subst rt|].
        -- rewrite bool_decide_true by done.
           destruct (Project.adopt data _) as [[l'|x] s1] eqn:Ha.
           ++ apply adopt_inv in Ha as (_ & _ & _ & Hv & _). by intros [= <- <-].
           ++ apply adopt_inv in Ha as (_ & ->). discriminate.
        -- rewrite bool_decide_false by congruence. by intros [= <- <-].
      * destruct (Project.adopt data _) as [[l'|x] s1] eqn:Ha.
        -- apply adopt_inv in Ha as (_ & _ & _ & Hv & _). by intros [= <- <-].
        -- apply adopt_inv in Ha as (_ & ->). discriminate.
    + destruct (is_OSError x); [|discriminate].
      by intros (_ & _ & _ & _ & ? & _)%new_project_inv.
  - destruct (is_OSError x); [|discriminate].
    by intros (_ & _ & _ & _ & ? & _)%new_project_inv.
Qed.

Lemma cached_registry_set_world e R w :
  cached_registry e R → cached_registry (set_world w e) R.
Proof. by intros [? ?]. Qed.

(** C4. Opening an existing descriptor with a requested target type
    other than the stored one gives a project of the requested type
    with an empty resource registry and the module configuration a
    fresh construction derives for that type: nothing of the decoded
    resources or module lists is kept. *)
Theorem open_mismatched_type_is_fresh snake_filename r e R f w data w' stored :
  cached_registry e R →
  builtin_open snake_filename "r" None None (world e) = (Ok f, w) →
  yml_load f w = (Ok data, w') →
  d_romtype data = Some stored →
  stored ≠ r →
  ∃ p e',
    Project.__init__ snake_filename (Some r) e = (Ok p, e')
    ∧ Project.romtype p = r
    ∧ Project._resources p = ∅
    ∧ ModuleConfig.romtype (Project.moduleconfig p) = r
    ∧ is_default_config r R (Project.moduleconfig p)
    ∧ ModuleConfig.__init__ r (os_path_dirname snake_filename) None e'
        = (Ok (Project.moduleconfig p), e').
Proof.
  intros HR Hopen Hload Hstored Hne.
  unfold Project.__init__, try_except, Project.load_project.
  cbv [mbind M_bind bind in_world].
  rewrite Hopen. simpl. rewrite Hload. simpl. rewrite Hstored. simpl.
  rewrite bool_decide_false by congruence. simpl.
  pose proof (cached_registry_set_world _ _ w' (cached_registry_set_world _ _ w HR)) as HR'.
  rewrite (init_fresh _ R) by done. simpl.
  eexists _, _. split; [done|]. simpl.
  repeat split; try done. by apply init_fresh.
Qed.

(** C10. The [version] attribute of a constructed project is the one
    [stored_version] describes: that of the decoded file (1 when the
    file has none) when the file was opened and decoded and the
    requested target type is unspecified or the stored one, and no
    attribute at all for a new project (the file cannot be opened) and
    for a mismatched target type.  Without the attribute, reading it
    raises [AttributeError]; [upgrade] assigns it when the upgrade of
    the module configuration returns, and leaves it as it was when
    that raises. *)
Theorem version_assigned_only_when_adopted snake_filename requested e p e' :
  Project.__init__ snake_filename requested e = (Ok p, e') →
  Project.version p = stored_version snake_filename requested e
  ∧ (∀ x w, builtin_open snake_filename "r" None None (world e) = (Raise x, w) →
       Project.version p = None)
  ∧ (∀ f w data w' r,
       builtin_open snake_filename "r" None None (world e) = (Ok f, w) →
       yml_load f w = (Ok data, w') →
       requested = Some r → d_romtype data ≠ Some r →
       Project.version p = None)
  ∧ (∀ f w data w',
       builtin_open snake_filename "r" None None (world e) = (Ok f, w) →
       yml_load f w = (Ok data, w') →
       requested = None ∨ requested = d_romtype data →
       Project.version p = Some (default 1%Z (d_version data)))
  ∧ (Project.version p = None →
       ∀ env, Project.get_version (p, env)
              = (Raise (AttributeError "'Project' object has no attribute 'version'"),
                 (p, env)))
  ∧ (∀ old_version new_version env r p2 env2,
       Project.upgrade old_version new_version (p, env) = (r, (p2, env2)) →
       Project.version p2
       = match r with Ok _ => Some new_version | Raise _ => Project.version p end).
Proof.
  intros Hinit. pose proof (init_Ok_version _ _ _ _ _ Hinit) as Hv.
  split; [done|]. rewrite Hv. unfold stored_version.
  split; [by intros x w ->|].
  split.
  { intros f w data w' r -> -> -> Hne. by rewrite bool_decide_false. }
  split.
  { intros f w data w' -> -> [-> | ->]; [done|].
    destruct (d_romtype data) as [rt|] eqn:Hrt; [by rewrite bool_decide_true|done]. }
  split.
  { intros Hnone env. unfold Project.get_version.
    cbv [mbind M_bind bind Project.self_ gets]. simpl.
    rewrite Hv. unfold stored_version. by rewrite Hnone. }
  intros old new env r p2 env2. unfold Project.upgrade.
  cbv [mbind M_bind bind Project.self_ gets Project.in_env Project.update_self modify].
  simpl.
  destruct (ModuleConfig.upgrade _ _ _ env) as [[[]|x] env1]; simpl;
    by intros [= <- <- <-].
Qed.
End Open.

Section Resources.
Context `{Host}.

(** Closes a goal that compares two ways of running the tail of
    [get_resource]: the directory test, [os.makedirs], [open]. *)
Local Ltac finish_open :=
  destruct (os_path_exists _ _); simpl;
  [ by destruct (builtin_open _ _ _ _ _) as [[?|?] ?]
  | destruct (os_makedirs _ _ _) as [[[]|?] ?]; simpl; [|done];
    by destruct (builtin_open _ _ _ _ _) as [[?|?] ?] ].

Lemma set_resources_id self : Project.set_resources (Project._resources self) self = self.
Proof. by destruct self. Qed.

Lemma registered_register_default res module_name resource_name extension :
  registered (register_default res module_name resource_name extension)
             module_name resource_name
  = Some (default (resource_name +:+ "." +:+ extension)
                  (registered res module_name resource_name)).
Proof.
  unfold register_default.
  destruct (registered res module_name resource_name) as [p|] eqn:Hreg; [done|].
  unfold registered. rewrite lookup_insert_eq. simpl. by rewrite lookup_insert_eq.
Qed.

Lemma register_default_idem res module_name resource_name extension :
  register_default (register_default res module_name resource_name extension)
                   module_name resource_name extension
  = register_default res module_name resource_name extension.
Proof.
  unfold register_default at 1. by rewrite registered_register_default.
Qed.

(** [get_resource] first brings the registry to [register_default] and
    then opens the registered path under the project directory; the
    registry is updated whatever the opening does. *)
Lemma get_resource_unfold module_name resource_name extension mode encoding newline
    self e :
  Project.get_resource module_name resource_name extension mode encoding newline
                       (self, e)
  = let self1 :=
      Project.set_resources
        (register_default (Project._resources self) module_name resource_name extension)
        self in
    let (r, e') :=
      open_resolved
        (os_path_join (Project._dir_name self)
           (default (resource_name +:+ "." +:+ extension)
                    (registered (Project._resources self) module_name resource_name)))
        mode encoding newline e in
    (r, (self1, e')).
Proof.
  unfold Project.get_resource, register_default, registered, Project.contains.
  cbv [mbind M_bind bind Project.self_ gets Project.when Project.update_self modify
       Project.in_env in_world open_resolved mret M_ret ret].
  simpl.
  destruct (Project._resources self !! module_name) as [inner|] eqn:Hm; simpl.
  - rewrite (lookup_total_correct _ _ _ Hm).
    destruct (inner !! resource_name) as [path|] eqn:Hr; simpl.
    + rewrite (lookup_total_correct _ _ _ Hm), (lookup_total_correct _ _ _ Hr).
      rewrite set_resources_id. finish_open.
    + rewrite !lookup_total_insert_eq. finish_open.
  - rewrite lookup_total_insert_eq, lookup_empty. simpl.
    rewrite !lookup_total_insert_eq, insert_insert_eq. finish_open.
Qed.

Lemma registered_unregister res module_name resource_name :
  registered (unregister res module_name resource_name) module_name resource_name
  = None.
Proof.
  unfold registered, unregister. rewrite lookup_insert_eq. simpl.
  apply lookup_delete_eq.
Qed.

(** [delete_resource] case by case. *)
Lemma delete_resource_unfold module_name resource_name self e :
  Project.delete_resource module_name resource_name (self, e)
  = match Project._resources self !! module_name with
    | None => (Raise (CoilSnakeError ("No such module " +:+ module_name)), (self, e))
    | Some inner =>
        match inner !! resource_name with
        | None =>
            (Raise (CoilSnakeError ("No such resource " +:+ resource_name
                                      +:+ " in module " +:+ module_name)),
             (self, e))
        | Some path =>
            let removed :=
              Project.set_resources
                (unregister (Project._resources self) module_name resource_name) self in
            let fname := os_path_join (Project._dir_name self) path in
            if os_path_isfile fname (world e) then
              match os_remove fname (world e) with
              | (Ok _, w) => (Ok tt, (removed, set_world w e))
              | (Raise x, w) => (Raise x, (self, set_world w e))
              end
            else (Ok tt, (removed, e))
        end
    end.
Proof.
  unfold Project.delete_resource, unregister, Project.contains.
  cbv [mbind M_bind bind Project.self_ gets Project.when Project.update_self modify
       Project.in_env in_world mret M_ret ret raise].
  simpl.
  destruct (Project._resources self !! module_name) as [inner|] eqn:Hm; simpl; [|done].
  rewrite (lookup_total_correct _ _ _ Hm).
  destruct (inner !! resource_name) as [path|] eqn:Hr; simpl; [|done].
  rewrite (lookup_total_correct _ _ _ Hr).
  destruct (os_path_isfile _ _); simpl; [|done].
  by destruct (os_remove _ _) as [[[]|?] ?].
Qed.

(** C7. [delete_resource] raises [CoilSnakeError] and changes nothing
    when the module or the resource is not registered.  When it
    returns, the entry is gone from the registry; it returns also when
    no file was there to remove; and a [get_resource] for the same
    pair afterwards registers the default name
    [resource_name + "." + extension]. *)
Theorem delete_resource_outcome module_name resource_name self e :
  (Project._resources self !! module_name = None →
     Project.delete_resource module_name resource_name (self, e)
     = (Raise (CoilSnakeError ("No such module " +:+ module_name)), (self, e)))
  ∧ (∀ inner,
       Project._resources self !! module_name = Some inner →
       inner !! resource_name = None →
       Project.delete_resource module_name resource_name (self, e)
       = (Raise (CoilSnakeError ("No such resource " +:+ resource_name
                                   +:+ " in module " +:+ module_name)),
          (self, e)))
  ∧ (∀ path,
       registered (Project._resources self) module_name resource_name = Some path →
       os_path_isfile (os_path_join (Project._dir_name self) path) (world e) = false →
       Project.delete_resource module_name resource_name (self, e)
       = (Ok tt,
          (Project.set_resources
             (unregister (Project._resources self) module_name resource_name) self,
           e)))
  ∧ (∀ self' e',
       Project.delete_resource module_name resource_name (self, e)
       = (Ok tt, (self', e')) →
       Project._resources self'
       = unregister (Project._resources self) module_name resource_name
       ∧ registered (Project._resources self') module_name resource_name = None
       ∧ ∀ extension mode encoding newline r self'' e'',
           Project.get_resource module_name resource_name extension mode
                                encoding newline (self', e')
           = (r, (self'', e'')) →
           registered (Project._resources self'') module_name resource_name
           = Some (resource_name +:+ "." +:+ extension)).
Proof.
  rewrite delete_resource_unfold.
  split; [by intros ->|].
  split; [by intros inner -> ->|].
  split.
  { intros path. unfold registered.
    destruct (Project._resources self !! module_name) as [inner|]; simpl; [|done].
    by intros -> ->. }
  intros self' e' Hdel.
  assert (self' = Project.set_resources
                    (unregister (Project._resources self) module_name resource_name)
                    self) as ->.
  { destruct (Project._resources self !! module_name) as [inner|]; [|done].
    destruct (inner !! resource_name) as [path|]; [|done].
    simpl in Hdel. destruct (os_path_isfile _ _).
    - destruct (os_remove _ _) as [[[]|?] ?]; [|done]. by injection Hdel.
    - by injection Hdel. }
  simpl. split; [done|]. split; [apply registered_unregister|].
  intros extension mode encoding newline r self'' e''.
  rewrite get_resource_unfold. simpl.
  destruct (open_resolved _ _ _ _ _) as [r' e3]. intros [= _ <- _]. simpl.
  rewrite registered_register_default.
  by rewrite registered_unregister.
Qed.

(** C8. Two consecutive calls of [get_resource] with the same
    arguments find the same relative path registered and open the same
    file under the project directory; the first call brings the
    registry to [register_default], which adds the pair only when it
    is absent, and the second call changes nothing in the project. *)
Theorem get_resource_twice module_name resource_name extension mode encoding newline
    self e r1 self1 e1 r2 self2 e2 :
  Project.get_resource module_name resource_name extension mode encoding newline
                       (self, e) = (r1, (self1, e1)) →
  Project.get_resource module_name resource_name extension mode encoding newline
                       (self1, e1) = (r2, (self2, e2)) →
  ∃ path,
    registered (Project._resources self1) module_name resource_name = Some path
    ∧ registered (Project._resources self2) module_name resource_name = Some path
    ∧ self2 = self1
    ∧ Project._resources self1
      = register_default (Project._resources self) module_name resource_name extension
    ∧ path = default (resource_name +:+ "." +:+ extension)
                     (registered (Project._resources self) module_name resource_name)
    ∧ r1 = (open_resolved (os_path_join (Project._dir_name self) path)
                          mode encoding newline e).1
    ∧ r2 = (open_resolved (os_path_join (Project._dir_name self) path)
                          mode encoding newline e1).1.
Proof.
  rewrite !get_resource_unfold. simpl.
  destruct (open_resolved _ _ _ _ e) as [r e'] eqn:Ho1.
  intros [= <- <- <-]. simpl.
  rewrite registered_register_default. simpl.
  rewrite register_default_idem.
  destruct (open_resolved _ _ _ _ e') as [r' e''] eqn:Ho2.
  intros [= <- <- <-].
  eexists. split; [done|]. simpl.
  rewrite registered_register_default, Ho1, Ho2. by destruct self.
Qed.

(** C9. When [get_resource] has to register the pair and then raises,
    because the directories cannot be made or the file cannot be
    opened, the new entry is in the registry all the same. *)
Theorem get_resource_keeps_entry_on_failure module_name resource_name extension mode
    encoding newline self e x self' e' :
  registered (Project._resources self) module_name resource_name = None →
  Project.get_resource module_name resource_name extension mode encoding newline
                       (self, e) = (Raise x, (self', e')) →
  registered (Project._resources self') module_name resource_name
  = Some (resource_name +:+ "." +:+ extension).
Proof.
  intros Hnone. rewrite get_resource_unfold. simpl.
  destruct (open_resolved _ _ _ _ e) as [r e1]. intros [= _ <- _]. simpl.
  by rewrite registered_register_default, Hnone.
Qed.
End Resources.

(** ** Discovery of the registry *)

Section Discovery.
Context `{Host}.

(** A comment line adds nothing to the registry. *)
Lemma comment_line_skipped line lines all_modules e :
  is_comment line = true →
  ModuleConfig.read_modulelist (line :: lines) all_modules e
  = ModuleConfig.read_modulelist lines all_modules e.
Proof.
  unfold is_comment. simpl.
  destruct (rstrip_newline line) as [|c r]; [discriminate|]. by intros ->.
Qed.

(** When the loop gets through, the names it collected are the lines
    that are not comments, newline stripped, in manifest order. *)
Lemma read_modulelist_names lines all_modules e R e' :
  ModuleConfig.read_modulelist lines all_modules e = (Ok R, e') →
  R.*1 = all_modules.*1
           ++ (rstrip_newline <$> filter (λ l, is_comment l = false) lines).
Proof.
  revert all_modules e. induction lines as [|line lines IH]; intros acc e; simpl.
  - intros [= <- <-]. by rewrite app_nil_r.
  - rewrite filter_cons.
    destruct (rstrip_newline line) as [|c r] eqn:Hline; [discriminate|].
    assert (is_comment line = Ascii.eqb c "#") as Hcomment
      by (unfold is_comment; by rewrite Hline).
    destruct (Ascii.eqb c "#") eqn:Hc.
    + rewrite decide_False by congruence. apply IH.
    + rewrite decide_True by done.
      cbv [mbind M_bind bind].
      destruct (in_world _ e) as [[m|x] e1]; [|discriminate].
      unfold ModuleConfig.getitem.
      destruct (m !! _) as [cls|]; [|discriminate]. simpl.
      intros Hrest%IH. rewrite Hrest, fmap_app, fmap_cons, Hline. simpl.
      by rewrite <-app_assoc.
Qed.

(** A blank line anywhere in the manifest makes the loop raise: the
    blank line itself with [IndexError], unless a line before it
    failed to resolve. *)
Lemma read_modulelist_blank lines all_modules e :
  (∃ line, line ∈ lines ∧ is_blank line) →
  ∃ x e', ModuleConfig.read_modulelist lines all_modules e = (Raise x, e').
Proof.
  intros (blank & Hin & Hblank). revert all_modules e.
  induction lines as [|line lines IH]; intros acc e; [by apply elem_of_nil in Hin|].
  simpl. destruct (rstrip_newline line) as [|c r] eqn:Hline; [by eexists _, _|].
  apply elem_of_cons in Hin as [->|Hin]; [unfold is_blank in Hblank; congruence|].
  destruct (Ascii.eqb c "#"); [by apply IH|].
  cbv [mbind M_bind bind].
  destruct (in_world _ e) as [[m|x] e1]; [|by eexists _, _].
  unfold ModuleConfig.getitem.
  destruct (m !! _) as [cls|]; [|by eexists _, _]. simpl. by apply IH.
Qed.

(** So a first call of [_get_default_modules] never returns when the
    manifest has a blank line. *)
Lemma discovery_blank_line_raises e text w :
  ModuleConfig.list_truth (default [] (_DEFAULT_MODULES e)) = false →
  open_asset "modulelist.txt" (world e) = (Ok text, w) →
  (∃ line, line ∈ file_lines text ∧ is_blank line) →
  ∃ x e', ModuleConfig._get_default_modules e = (Raise x, e').
Proof.
  intros Hcold Hasset Hblank. unfold ModuleConfig._get_default_modules.
  cbv [mbind M_bind bind gets in_world]. rewrite Hcold, Hasset.
  destruct (read_modulelist_blank (file_lines text) [] (set_world w e) Hblank)
    as (x & e' & ->).
  by eexists _, _.
Qed.
End Discovery.

(** C6. On a manifest with a comment line, a module name, a blank line
    and another module name, the first call of [_get_default_modules]
    skips the comment, resolves the first module and then raises
    [IndexError] at the blank line, where the specification has the
    blank line skipped; nothing is cached. *)
Theorem discovery_raises_at_blank_line :
  ModuleConfig._get_default_modules MemHost.env_blank
  = (Raise (IndexError "string index out of range"), MemHost.env_blank).
Proof. reflexivity. Qed.

(** ** Runs on the in-memory host *)

Lemma merge_empty_data d : merge_data empty_data d = d.
Proof. by destruct d as [[?|] [?|] [?|] [?|]]. Qed.

(** The in-memory host reads back what was dumped. *)
Lemma MemHost_codec_round_trip : @codec_round_trip MemHost.host.
Proof.
  intros name d1 d2 f w w1 w2 w3. simpl.
  unfold MemHost.open_, MemHost.dump, MemHost.load, MemHost.isfile.
  case_match; [|discriminate]. intros [= <- <-]. simpl.
  rewrite lookup_insert_eq. intros [= <-]. simpl.
  rewrite lookup_insert_eq. intros [= <-]. simpl.
  rewrite ?insert_insert_eq, ?lookup_insert_eq.
  rewrite ?bool_decide_true by done.
  eexists _, _, _. split; [done|]. simpl. rewrite lookup_insert_eq. simpl.
  by rewrite merge_empty_data.
Qed.

Example discovery_run :
  ModuleConfig._get_default_modules MemHost.env0 = (Ok MemHost.registry0, MemHost.env1).
Proof. reflexivity. Qed.

Example new_project_run :
  Project.__init__ "proj/Project.snake" (Some "Earthbound") MemHost.env1
  = (Ok MemHost.project0, MemHost.env_proj).
Proof. reflexivity. Qed.

Example open_saved_run :
  (Project.__init__ "proj/Project.snake" None MemHost.env_saved).1
  = Ok (Project.set_version (Some 13%Z) MemHost.project1).
Proof. reflexivity. Qed.

Example load_modules_run :
  (Project.load_modules (MemHost.project0, MemHost.env_proj)).1
  = Ok [("eb.MapModule", ["Earthbound"]); ("eb.SpriteModule", ["Earthbound"])].
Proof. reflexivity. Qed.

(** An enabled name is resolved only when its class is compatible, and
    the project-specific module comes last; [sys.path] is as before. *)
Example project_specific_run :
  (ModuleConfig.get_project_modules MemHost.config_custom MemHost.env_custom).1
  = Ok [("eb.SpriteModule", ["Earthbound"]); ("mymod.Thing", ["Earthbound"])]
  ∧ sys_path (ModuleConfig.get_project_modules MemHost.config_custom MemHost.env_custom).2
    = sys_path MemHost.env_custom.
Proof. split; reflexivity. Qed.

Example project_specific_missing_run :
  (ModuleConfig.get_project_modules MemHost.config_custom MemHost.env1).1
  = Raise (ValueError "Cannot locate module 'mymod.Thing'").
Proof. reflexivity. Qed.

Example get_version_name_run :
  get_version_name 5 = "2.0.4" ∧ get_version_name 14 = "Unknown Version".
Proof. split; reflexivity. Qed.

Lemma registry0_cached : cached_registry MemHost.env1 MemHost.registry0.
Proof. split; reflexivity. Qed.

Lemma registry0_cached_saved : cached_registry MemHost.env_saved MemHost.registry0.
Proof. split; reflexivity. Qed.

(** C1 on the three-module registry: an Earthbound project resolves to
    the two Earthbound modules. *)
Lemma fresh_config_resolves_compatible_subset_witness :
  cached_registry MemHost.env1 MemHost.registry0
  ∧ ModuleConfig.__init__ "Earthbound" "proj" None MemHost.env1
    = (Ok MemHost.config0, MemHost.env1)
  ∧ ModuleConfig.get_project_modules MemHost.config0 MemHost.env1
    = (Ok [("eb.MapModule", ["Earthbound"]); ("eb.SpriteModule", ["Earthbound"])],
       MemHost.env1).
Proof.
  split; [exact registry0_cached|].
  destruct (fresh_config_resolves_compatible_subset
              MemHost.env1 MemHost.registry0 "Earthbound" "proj" registry0_cached)
    as (self & Hinit & Hget & _).
  assert (self = MemHost.config0) as ->.
  { assert (ModuleConfig.__init__ "Earthbound" "proj" None MemHost.env1
            = (Ok MemHost.config0, MemHost.env1)) as Hrun by reflexivity.
    rewrite Hrun in Hinit. by injection Hinit as <-. }
  split; [exact Hinit|exact Hget].
Defined.

(** C5 on a configuration that predates [eb.SpriteModule]. *)
Lemma add_missing_defaults_appends_once_witness :
  cached_registry MemHost.env1 MemHost.registry0
  ∧ ∃ self',
      ModuleConfig.add_missing_defaults MemHost.config_stale false MemHost.env1
      = (Ok self', MemHost.env1)
      ∧ ModuleConfig.disabled_module_names self' = ["eb.SpriteModule"]
      ∧ ModuleConfig.enabled_module_names self' = ["eb.MapModule"]
      ∧ ModuleConfig.add_missing_defaults self' false MemHost.env1
        = (Ok self', MemHost.env1).
Proof.
  split; [exact registry0_cached|].
  destruct (add_missing_defaults_appends_once
              MemHost.config_stale false MemHost.env1 MemHost.registry0 registry0_cached)
    as (self' & Hadd & [Hdis Hen] & _ & _ & _ & Hagain).
  exists self'. split; [exact Hadd|]. split; [|split; [exact Hen|exact Hagain]].
  rewrite Hdis. reflexivity.
Defined.

(** C2 on [config0], the fresh configuration, from versions 12 and 13. *)
Lemma upgrade_outcome_witness :
  cached_registry MemHost.env1 MemHost.registry0
  ∧ is_default_config "Earthbound" MemHost.registry0 MemHost.config0
  ∧ ModuleConfig.upgrade MemHost.config0 12 13 MemHost.env1 = (Ok tt, MemHost.env1)
  ∧ ModuleConfig.upgrade MemHost.config0 13 14 MemHost.env1
    = (Raise (NotImplementedError "Don't know how to upgrade from version 13"),
       MemHost.env1).
Proof.
  assert (is_default_config "Earthbound" MemHost.registry0 MemHost.config0) as Hdef
    by (repeat split; reflexivity).
  split; [exact registry0_cached|]. split; [exact Hdef|].
  destruct (upgrade_outcome MemHost.config0 12 13 MemHost.env1 MemHost.registry0
              registry0_cached) as [Hbelow _].
  destruct (upgrade_outcome MemHost.config0 13 14 MemHost.env1 MemHost.registry0
              registry0_cached) as [_ Hfrom].
  split.
  - apply Hbelow; [lia|exact Hdef].
  - destruct Hfrom as [Herr _]; [lia|]. exact Herr.
Defined.

(** C2 as stated fails: from version 13 the exception is the same for
    the new versions 14 and 15, so no reading of the exception gives
    back the new version it would have to carry. *)
Lemma upgrade_error_omits_new_version :
  ModuleConfig.upgrade MemHost.config0 13 14 MemHost.env1
  = (Raise (NotImplementedError "Don't know how to upgrade from version 13"),
     MemHost.env1)
  ∧ ModuleConfig.upgrade MemHost.config0 13 15 MemHost.env1
    = (Raise (NotImplementedError "Don't know how to upgrade from version 13"),
       MemHost.env1)
  ∧ ¬ ∃ versions_of : PyExc → Z * Z,
        ∀ new_version : Z,
          ∃ x e', ModuleConfig.upgrade MemHost.config0 13 new_version MemHost.env1
                  = (Raise x, e')
                  ∧ versions_of x = (13, new_version)%Z.
Proof.
  assert (∀ new_version : Z,
            ModuleConfig.upgrade MemHost.config0 13 new_version MemHost.env1
            = (Raise (NotImplementedError "Don't know how to upgrade from version 13"),
               MemHost.env1)) as Hup by (intros; reflexivity).
  split; [apply Hup|]. split; [apply Hup|].
  intros (versions_of & Hcarry).
  destruct (Hcarry 14%Z) as (x1 & e1 & H1 & Hv1).
  destruct (Hcarry 15%Z) as (x2 & e2 & H2 & Hv2).
  rewrite Hup in H1, H2. injection H1 as <- _. injection H2 as <- _.
  rewrite Hv1 in Hv2. discriminate.
Qed.

(** C3 on [project1]: saved from a version 9 project, reopened as
    version 13 with the same registry and lists. *)
Lemma save_open_round_trip_witness :
  @codec_round_trip MemHost.host
  ∧ Project.save (MemHost.project1, MemHost.env_proj)
    = (Ok tt, (MemHost.project1, MemHost.env_saved))
  ∧ ∃ p e'',
      Project.__init__ "proj/Project.snake" None MemHost.env_saved = (Ok p, e'')
      ∧ Project.romtype p = "Earthbound"
      ∧ Project._resources p = Project._resources MemHost.project1
      ∧ ModuleConfig.enabled_module_names (Project.moduleconfig p) = ["eb.MapModule"]
      ∧ ModuleConfig.disabled_module_names (Project.moduleconfig p) = ["eb.SpriteModule"]
      ∧ Project.version p = Some 13%Z.
Proof.
  assert (Project.save (MemHost.project1, MemHost.env_proj)
          = (Ok tt, (MemHost.project1, MemHost.env_saved))) as Hsave by reflexivity.
  split; [exact MemHost_codec_round_trip|]. split; [exact Hsave|].
  destruct (save_open_round_trip MemHost.project1 MemHost.env_proj
              MemHost.project1 MemHost.env_saved None
              MemHost_codec_round_trip Hsave (or_introl eq_refl))
    as (p & e'' & Hinit & Hrt & Hres & Hen & Hdis & _ & Hv).
  exists p, e''. repeat split; assumption.
Defined.

(** C4 on the saved Earthbound descriptor, opened for Super Mario
    Bros. *)
Lemma open_mismatched_type_is_fresh_witness :
  cached_registry MemHost.env_saved MemHost.registry0
  ∧ ∃ p e',
      Project.__init__ "proj/Project.snake" (Some "Super Mario Bros") MemHost.env_saved
      = (Ok p, e')
      ∧ Project.romtype p = "Super Mario Bros"
      ∧ Project._resources p = ∅
      ∧ ModuleConfig.enabled_module_names (Project.moduleconfig p) = ["smb.StagesModule"]
      ∧ ModuleConfig.disabled_module_names (Project.moduleconfig p) = [].
Proof.
  split; [exact registry0_cached_saved|].
  assert (builtin_open "proj/Project.snake" "r" None None (world MemHost.env_saved)
          = (Ok {| f_name := "proj/Project.snake"; f_mode := "r" |},
             world MemHost.env_saved)) as Hopen by reflexivity.
  assert (yml_load {| f_name := "proj/Project.snake"; f_mode := "r" |}
                   (world MemHost.env_saved)
          = (Ok MemHost.data_saved, world MemHost.env_saved)) as Hload by reflexivity.
  assert (d_romtype MemHost.data_saved = Some "Earthbound") as Hstored by reflexivity.
  assert ("Earthbound" ≠ "Super Mario Bros") as Hne by discriminate.
  destruct (open_mismatched_type_is_fresh
              "proj/Project.snake" "Super Mario Bros" MemHost.env_saved MemHost.registry0
              _ _ _ _ _ registry0_cached_saved Hopen Hload Hstored Hne)
    as (p & e' & Hinit & Hrt & Hres & _ & (Hen & Hdis & _) & _).
  exists p, e'. repeat split; assumption.
Defined.

(** C10 on a new project: no [version] attribute, reading it raises. *)
Lemma version_assigned_only_when_adopted_witness :
  Project.__init__ "proj/Project.snake" (Some "Earthbound") MemHost.env1
  = (Ok MemHost.project0, MemHost.env_proj)
  ∧ Project.version MemHost.project0 = None
  ∧ Project.get_version (MemHost.project0, MemHost.env_proj)
    = (Raise (AttributeError "'Project' object has no attribute 'version'"),
       (MemHost.project0, MemHost.env_proj)).
Proof.
  assert (Project.__init__ "proj/Project.snake" (Some "Earthbound") MemHost.env1
          = (Ok MemHost.project0, MemHost.env_proj)) as Hinit by reflexivity.
  split; [exact Hinit|].
  destruct (version_assigned_only_when_adopted _ _ _ _ _ Hinit)
    as (_ & Habsent & _ & _ & Hread & _).
  assert (Project.version MemHost.project0 = None) as Hnone.
  { apply (Habsent (OSError "No such file or directory") (world MemHost.env1)).
    reflexivity. }
  split; [exact Hnone|]. apply Hread. exact Hnone.
Defined.

(** C7 on [project1], whose registered file [proj/map_tiles.map] was
    never written. *)
Lemma delete_resource_outcome_witness :
  registered (Project._resources MemHost.project1) "eb.MapModule" "map_tiles"
  = Some "map_tiles.map"
  ∧ os_path_isfile "proj/map_tiles.map" (world MemHost.env_proj) = false
  ∧ ∃ self',
      Project.delete_resource "eb.MapModule" "map_tiles" (MemHost.project1, MemHost.env_proj)
      = (Ok tt, (self', MemHost.env_proj))
      ∧ registered (Project._resources self') "eb.MapModule" "map_tiles" = None
      ∧ registered
          (Project._resources
             (Project.get_resource "eb.MapModule" "map_tiles" "dat" "w" None None
                                   (self', MemHost.env_proj)).2.1)
          "eb.MapModule" "map_tiles"
        = Some "map_tiles.dat".
Proof.
  assert (registered (Project._resources MemHost.project1) "eb.MapModule" "map_tiles"
          = Some "map_tiles.map") as Hreg by reflexivity.
  assert (os_path_isfile "proj/map_tiles.map" (world MemHost.env_proj) = false)
    as Hfile by reflexivity.
  split; [exact Hreg|]. split; [exact Hfile|].
  destruct (delete_resource_outcome "eb.MapModule" "map_tiles"
              MemHost.project1 MemHost.env_proj)
    as (_ & _ & Hmissing & Hdone).
  pose proof (Hmissing "map_tiles.map" Hreg Hfile) as Hdel.
  destruct (Hdone _ _ Hdel) as (_ & Hgone & Hagain).
  eexists. split; [exact Hdel|]. split; [exact Hgone|].
  destruct (Project.get_resource "eb.MapModule" "map_tiles" "dat" "w" None None _)
    as [r [self'' e'']] eqn:Hget.
  exact (Hagain "dat" "w" None None r self'' e'' Hget).
Defined.

(** C8 on a new project: the first call registers [map_tiles.map], the
    second finds it and registers nothing. *)
Lemma get_resource_twice_witness :
  ∃ self1 e1 e2,
    Project.get_resource "eb.MapModule" "map_tiles" "map" "w" None None
                         (MemHost.project0, MemHost.env_proj)
    = (Ok {| f_name := "proj/map_tiles.map"; f_mode := "w" |}, (self1, e1))
    ∧ Project.get_resource "eb.MapModule" "map_tiles" "map" "w" None None (self1, e1)
      = (Ok {| f_name := "proj/map_tiles.map"; f_mode := "w" |}, (self1, e2))
    ∧ registered (Project._resources self1) "eb.MapModule" "map_tiles"
      = Some "map_tiles.map".
Proof.
  pose (s1 := (Project.get_resource "eb.MapModule" "map_tiles" "map" "w" None None
                 (MemHost.project0, MemHost.env_proj)).2).
  pose (s2 := (Project.get_resource "eb.MapModule" "map_tiles" "map" "w" None None
                 (s1.1, s1.2)).2).
  assert (Project.get_resource "eb.MapModule" "map_tiles" "map" "w" None None
                               (MemHost.project0, MemHost.env_proj)
          = (Ok {| f_name := "proj/map_tiles.map"; f_mode := "w" |}, (s1.1, s1.2)))
    as H1 by reflexivity.
  assert (Project.get_resource "eb.MapModule" "map_tiles" "map" "w" None None
                               (s1.1, s1.2)
          = (Ok {| f_name := "proj/map_tiles.map"; f_mode := "w" |}, (s2.1, s2.2)))
    as H2 by reflexivity.
  destruct (get_resource_twice _ _ _ _ _ _ _ _ _ _ _ _ _ _ H1 H2)
    as (path & Hp1 & _ & Hsame & _ & Hpath & _).
  exists s1.1, s1.2, s2.2. split; [exact H1|]. split.
  - rewrite Hsame in H2. exact H2.
  - rewrite Hp1, Hpath. reflexivity.
Defined.

(** C9 on a new project: opening the unwritten [proj/sprites.dat] with
    mode [r+] raises, and the entry stays. *)
Lemma get_resource_keeps_entry_on_failure_witness :
  registered (Project._resources MemHost.project0) "eb.SpriteModule" "sprites" = None
  ∧ Project.get_resource "eb.SpriteModule" "sprites" "dat" "r+" None None
                         (MemHost.project0, MemHost.env_proj)
    = (Raise (OSError "No such file or directory"),
       (MemHost.project0_sprites, MemHost.env_proj))
  ∧ registered (Project._resources MemHost.project0_sprites) "eb.SpriteModule" "sprites"
    = Some "sprites.dat".
Proof.
  assert (registered (Project._resources MemHost.project0) "eb.SpriteModule" "sprites"
          = None) as Hnone by reflexivity.
  assert (Project.get_resource "eb.SpriteModule" "sprites" "dat" "r+" None None
                               (MemHost.project0, MemHost.env_proj)
          = (Raise (OSError "No such file or directory"),
             (MemHost.project0_sprites, MemHost.env_proj))) as Hget by reflexivity.
  split; [exact Hnone|]. split; [exact Hget|].
  exact (get_resource_keeps_entry_on_failure _ _ _ _ _ _ _ _ _ _ _ Hnone Hget).
Defined.

(** * Further properties of the code *)

(** ** Resolution of the active modules *)

Section Resolution.
Context `{Host}.

Lemma enabled_filter_eq self (R : Registry) :
  filter (λ nc, nc.1 ∈ (list_to_set (ModuleConfig.enabled_module_names self) : gset string)
                ∧ ModuleConfig.class_is_compatible self nc.2) R
  = enabled_compatible self R.
Proof.
  unfold enabled_compatible. apply list_filter_iff. intros [name cls]. simpl.
  unfold ModuleConfig.class_is_compatible. by rewrite elem_of_list_to_set.
Qed.

(** X1. Without project-specific modules [get_project_modules] always
    returns, leaves the environment alone, and gives the registry
    entries whose name is enabled and whose class is compatible, in
    registry order: an enabled name of an incompatible class, or of no
    registry entry, is passed over silently. *)
Theorem get_project_modules_builtin_only self e R :
  cached_registry e R →
  ModuleConfig.project_specific_modules self = [] →
  ModuleConfig.get_project_modules self e = (Ok (enabled_compatible self R), e).
Proof.
  intros HR Hps. unfold ModuleConfig.get_project_modules, ModuleConfig.get_default_modules.
  cbv [mbind M_bind bind]. rewrite (get_default_modules_cached e R HR), Hps. simpl.
  cbv [mret M_ret ret]. by rewrite app_nil_r, enabled_filter_eq.
Qed.

(** X2. When [get_project_modules] returns, its result is the enabled
    and compatible registry entries followed by one pair per
    project-specific module, named as and ordered like
    [project_specific_modules]. *)
Theorem get_project_modules_shape self e R res e' :
  cached_registry e R →
  ModuleConfig.get_project_modules self e = (Ok res, e') →
  ∃ specific,
    res = enabled_compatible self R ++ specific
    ∧ specific.*1 = ModuleConfig.project_specific_modules self.
Proof.
  intros HR. unfold ModuleConfig.get_project_modules, ModuleConfig.get_default_modules.
  cbv [mbind M_bind bind]. rewrite (get_default_modules_cached e R HR).
  destruct (for_each _ _ e) as [[loaded|?] e1] eqn:Hl; [|discriminate].
  intros [= <- <-]. exists loaded. split; [by rewrite enabled_filter_eq|].
  eapply (for_each_names (ModuleConfig.load_project_specific_module self)), Hl.
Qed.
End Resolution.

(** ** Stored module configurations *)

Section StoredConfig.
Context `{Host}.

(** X3. [to_dict] and [__init__] are inverse: constructing a
    configuration from the dict of [self], with the target type and
    directory of [self], gives [self] back, without consulting the
    registry. *)
Theorem to_dict_init_round_trip (self : ModuleConfig.t) (e : Env) :
  ModuleConfig.__init__ (ModuleConfig.romtype self) (ModuleConfig.project_dir self)
                        (Some (ModuleConfig.to_dict self)) e
  = (Ok self, e).
Proof. rewrite init_stored. by destruct self. Qed.

(** X4. A stored dict that is not empty is taken as it is: the three
    lists are read in the order enabled, disabled, project-specific, the
    first missing key raises [KeyError], and neither the registry nor
    the compatibility of the stored names is looked at. *)
Theorem init_stored_dict_outcome T dir (d : gmap string (list string)) (e : Env) :
  d ≠ ∅ →
  ModuleConfig.__init__ T dir (Some d) e
  = (match d !! ModuleConfig.L_ENABLED, d !! ModuleConfig.L_DISABLED,
           d !! ModuleConfig.L_PROJ_SPECIFIC with
     | None, _, _ => Raise (KeyError ModuleConfig.L_ENABLED)
     | Some _, None, _ => Raise (KeyError ModuleConfig.L_DISABLED)
     | Some _, Some _, None => Raise (KeyError ModuleConfig.L_PROJ_SPECIFIC)
     | Some enabled, Some disabled, Some proj_specific =>
         Ok {| ModuleConfig.romtype := T; ModuleConfig.project_dir := dir;
               ModuleConfig.enabled_module_names := enabled;
               ModuleConfig.disabled_module_names := disabled;
               ModuleConfig.project_specific_modules := proj_specific |}
     end, e).
Proof.
  intros Hd. unfold ModuleConfig.__init__, ModuleConfig.dict_truth.
  rewrite bool_decide_false by done. simpl.
  unfold ModuleConfig.getitem. cbv [mbind M_bind bind].
  destruct (d !! ModuleConfig.L_ENABLED); [|done].
  destruct (d !! ModuleConfig.L_DISABLED); [|done].
  by destruct (d !! ModuleConfig.L_PROJ_SPECIFIC).
Qed.

(** X5. An empty stored dict counts as no stored dict: the configuration
    is derived from the registry. *)
Theorem init_empty_dict_is_fresh T dir (e : Env) R :
  cached_registry e R →
  ModuleConfig.__init__ T dir (Some ∅) e = (Ok (fresh_config T dir R), e).
Proof.
  intros HR. unfold ModuleConfig.__init__, ModuleConfig.dict_truth.
  rewrite bool_decide_true by done. simpl.
  cbv [mbind M_bind bind]. by rewrite (get_default_modules_cached e R HR).
Qed.
End StoredConfig.

(** ** Invariants of [add_missing_defaults] *)

Section Defaults.
Context `{Host}.

Lemma missing_defaults_fresh T dir R : missing_defaults R (fresh_config T dir R) = [].
Proof.
  apply filter_none. intros name Hname [Hne _]. by apply Hne.
Qed.

(** X6. A freshly derived configuration misses no default:
    [add_missing_defaults] returns it unchanged, for either flag. *)
Theorem add_missing_defaults_fresh_noop T dir (target_enabled : bool) (e : Env) R :
  cached_registry e R →
  ModuleConfig.add_missing_defaults (fresh_config T dir R) target_enabled e
  = (Ok (fresh_config T dir R), e).
Proof.
  intros HR. rewrite (add_missing_defaults_cached _ _ e R HR).
  rewrite missing_defaults_fresh.
  destruct target_enabled; unfold ModuleConfig.set_enabled_module_names,
    ModuleConfig.set_disabled_module_names, fresh_config; simpl;
    by rewrite ?app_nil_r.
Qed.

(** X7. After [add_missing_defaults] every registry name compatible with
    the target type is enabled or disabled. *)
Theorem add_missing_defaults_covers self (target_enabled : bool) (e : Env) R self' e' :
  cached_registry e R →
  ModuleConfig.add_missing_defaults self target_enabled e = (Ok self', e') →
  ∀ name, name ∈ (compatible_subset (ModuleConfig.romtype self) R).*1 →
    name ∈ ModuleConfig.enabled_module_names self'
    ∨ name ∈ ModuleConfig.disabled_module_names self'.
Proof.
  intros HR. rewrite (add_missing_defaults_cached _ _ e R HR).
  intros [= <- <-] name Hname.
  destruct (decide (name ∈ ModuleConfig.enabled_module_names self)) as [He|He].
  { left. destruct target_enabled; simpl; [|done]. apply elem_of_app. by left. }
  destruct (decide (name ∈ ModuleConfig.disabled_module_names self)) as [Hd|Hd].
  { right. destruct target_enabled; simpl; [done|]. apply elem_of_app. by left. }
  assert (name ∈ missing_defaults R self) as Hm
    by (apply list_elem_of_filter; by split).
  destruct target_enabled; simpl; [left|right]; apply elem_of_app; by right.
Qed.

(** X8. [add_missing_defaults] keeps the lists well formed: when no name
    was both enabled and disabled, none is afterwards; and when the
    registry names and both lists were free of duplicates, both lists
    still are. *)
Theorem add_missing_defaults_keeps_lists self (target_enabled : bool) (e : Env) R self' e' :
  cached_registry e R →
  ModuleConfig.add_missing_defaults self target_enabled e = (Ok self', e') →
  (disjoint_lists self → disjoint_lists self')
  ∧ (NoDup R.*1 →
     NoDup (ModuleConfig.enabled_module_names self) →
     NoDup (ModuleConfig.disabled_module_names self) →
     NoDup (ModuleConfig.enabled_module_names self')
     ∧ NoDup (ModuleConfig.disabled_module_names self')).
Proof.
  intros HR. rewrite (add_missing_defaults_cached _ _ e R HR).
  intros [= <- <-].
  assert (∀ name, name ∈ missing_defaults R self →
            (name ∉ ModuleConfig.enabled_module_names self)
            ∧ (name ∉ ModuleConfig.disabled_module_names self)) as Hmiss.
  { intros name Hm. by apply list_elem_of_filter in Hm as [? _]. }
  split.
  - intros Hdisj name. destruct target_enabled; simpl.
    + intros [He|Hm]%elem_of_app; [by apply Hdisj|]. by apply Hmiss.
    + intros He [Hd|Hm]%elem_of_app; [by apply (Hdisj name)|].
      by apply Hmiss in Hm as [? _].
  - intros HndR Hnde Hndd.
    assert (NoDup (missing_defaults R self)) as Hndm.
    { apply NoDup_filter. eapply sublist_NoDup; [exact HndR|].
      apply fmap_sublist, sublist_filter. }
    destruct target_enabled; simpl; (split; [|try done]); try done;
      apply NoDup_app; (split; [done|]); (split; [|done]);
      intros name Hin Hm; by apply Hmiss in Hm as [? ?].
Qed.
End Defaults.

(** ** Project-specific modules *)

Section Loader.
Context `{Host}.

(** What one load leaves of the interpreter state: [sys.path] and the
    registry cache as they were, and [sys.modules] changed at most at
    the name loaded. *)
Lemma load_project_specific_module_frame self module_name e :
  let e' := (ModuleConfig.load_project_specific_module self module_name e).2 in
  sys_path e' = sys_path e
  ∧ _DEFAULT_MODULES e' = _DEFAULT_MODULES e
  ∧ ∀ k, k ≠ module_name → sys_modules e' !! k = sys_modules e !! k.
Proof.
  unfold ModuleConfig.load_project_specific_module, TempSysPathContext.
  cbv [mbind M_bind bind gets in_world modify mret M_ret ret raise]. simpl.
  destruct (sys_modules e !! module_name) as [m|]; simpl.
  { by destruct (m !! _). }
  destruct (importlib_find_spec _ _ _) as [[[]|?] w1]; simpl; try done.
  destruct (importlib_import_module _ _ _) as [[m|?] w2]; simpl; try done.
  destruct (m !! _); simpl; repeat split; try done;
    intros k Hk; by rewrite lookup_insert_ne.
Qed.

Lemma for_each_load_frame self names e :
  let e' := (for_each (λ name, cls ← ModuleConfig.load_project_specific_module self name;
                               ret (name, cls)) names e).2 in
  sys_path e' = sys_path e ∧ _DEFAULT_MODULES e' = _DEFAULT_MODULES e.
Proof.
  revert e. induction names as [|name names IH]; intros e; [done|].
  simpl. cbv [mbind M_bind bind mret M_ret ret].
  pose proof (load_project_specific_module_frame self name e) as (Hp & Hc & _).
  destruct (ModuleConfig.load_project_specific_module self name e) as [[cls|?] e1];
    simpl in *; [|done].
  pose proof (IH e1) as (Hp' & Hc').
  destruct (for_each _ names e1) as [[ys|?] e2]; simpl in *; split; congruence.
Qed.

(** X9. Whatever [get_project_modules] does, and also when a
    project-specific module cannot be loaded, [sys.path] is afterwards
    what it was before and the registry is still cached: the directory
    [CustomModules] is on the path only while a module is looked up. *)
Theorem get_project_modules_restores_path self e R :
  cached_registry e R →
  sys_path (ModuleConfig.get_project_modules self e).2 = sys_path e
  ∧ cached_registry (ModuleConfig.get_project_modules self e).2 R.
Proof.
  intros HR. unfold ModuleConfig.get_project_modules, ModuleConfig.get_default_modules.
  cbv [mbind M_bind bind]. rewrite (get_default_modules_cached e R HR).
  pose proof (for_each_load_frame self (ModuleConfig.project_specific_modules self) e)
    as (Hp & Hc).
  destruct (for_each _ _ e) as [[loaded|?] e1]; simpl in *;
    (split; [done|]); destruct HR as [HR1 HR2]; split; congruence.
Qed.

Lemma load_project_specific_module_known_aux self module_name e m :
  sys_modules e !! module_name = Some m →
  ModuleConfig.load_project_specific_module self module_name e
  = (match m !! rpartition_last "." module_name with
     | Some cls => Ok cls
     | None =>
         Raise (ValueError ("Module '" +:+ module_name +:+ "' must have a class named '"
                              +:+ rpartition_last "." module_name +:+ "'"))
     end, e).
Proof.
  intros Hm. unfold ModuleConfig.load_project_specific_module.
  cbv [mbind M_bind bind gets mret M_ret ret raise]. rewrite Hm. simpl.
  by destruct (m !! _).
Qed.

(** X10. A module already in [sys.modules] is not imported again: the
    class is read from it, or [ValueError] is raised when it has no
    attribute named like the last component of the identifier, and the
    environment is untouched. *)
Theorem load_project_specific_module_known self module_name e m :
  sys_modules e !! module_name = Some m →
  ModuleConfig.load_project_specific_module self module_name e
  = (match m !! rpartition_last "." module_name with
     | Some cls => Ok cls
     | None =>
         Raise (ValueError ("Module '" +:+ module_name +:+ "' must have a class named '"
                              +:+ rpartition_last "." module_name +:+ "'"))
     end, e).
Proof. apply load_project_specific_module_known_aux. Qed.

(** X11. A load that succeeded is repeatable: from the environment it
    leaves, loading the same identifier returns the same class and
    changes nothing, since the module is then in [sys.modules]. *)
Theorem load_project_specific_module_twice self module_name e cls e' :
  ModuleConfig.load_project_specific_module self module_name e = (Ok cls, e') →
  ModuleConfig.load_project_specific_module self module_name e' = (Ok cls, e').
Proof.
  intros Hload.
  assert (∃ m, sys_modules e' !! module_name = Some m
               ∧ m !! rpartition_last "." module_name = Some cls) as (m & Hm & Hcls).
  { revert Hload. unfold ModuleConfig.load_project_specific_module, TempSysPathContext.
    cbv [mbind M_bind bind gets in_world modify mret M_ret ret raise]. simpl.
    destruct (sys_modules e !! module_name) as [m|] eqn:Hm; simpl.
    { destruct (m !! _) as [c|] eqn:Hc; [|discriminate].
      intros [= <- <-]. by exists m. }
    destruct (importlib_find_spec _ _ _) as [[[]|?] w1]; simpl; try discriminate.
    destruct (importlib_import_module _ _ _) as [[m|?] w2]; simpl; try discriminate.
    destruct (m !! _) as [c|] eqn:Hc; [|discriminate].
    intros [= <- <-]. exists m. simpl. by rewrite lookup_insert_eq. }
  rewrite (load_project_specific_module_known_aux _ _ _ m Hm). by rewrite Hcls.
Qed.


(** X13. A module that is found and imported but has no attribute named
    like the last component of its identifier makes the load raise
    [ValueError], and is registered in [sys.modules] all the same. *)
Theorem load_project_specific_module_malformed self module_name e w m w' :
  sys_modules e !! module_name = None →
  importlib_find_spec module_name
    (os_path_join (ModuleConfig.project_dir self) "CustomModules" :: sys_path e)
    (world e) = (Ok true, w) →
  importlib_import_module module_name
    (os_path_join (ModuleConfig.project_dir self) "CustomModules" :: sys_path e)
    w = (Ok m, w') →
  m !! rpartition_last "." module_name = None →
  ModuleConfig.load_project_specific_module self module_name e
  = (Raise (ValueError ("Module '" +:+ module_name +:+ "' must have a class named '"
                          +:+ rpartition_last "." module_name +:+ "'")),
     set_sys_modules (<[module_name := m]> (sys_modules e)) (set_world w' e)).
Proof.
  intros Hm Hspec Himp Hcls.
  unfold ModuleConfig.load_project_specific_module, TempSysPathContext.
  cbv [mbind M_bind bind gets in_world modify mret M_ret ret raise]. simpl.
  rewrite Hm. simpl. rewrite Hspec. simpl. rewrite Himp. simpl. by rewrite Hcls.
Qed.
End Loader.

(** ** Discovery, continued *)

Section DiscoveryMore.
Context `{Host}.

#[local] Arguments split : simpl never.
#[local] Arguments String.append : simpl never.


(** X14. The registry is discovered once: after a call of
    [_get_default_modules] that returned at least one module, every
    later call returns the same registry and changes nothing, also when
    the world (the manifest, the importable modules) has changed in
    between. *)
Theorem discovery_only_once e R e1 :
  ModuleConfig._get_default_modules e = (Ok R, e1) →
  R ≠ [] →
  ModuleConfig._get_default_modules e1 = (Ok R, e1)
  ∧ ∀ w, ModuleConfig._get_default_modules (set_world w e1) = (Ok R, set_world w e1).
Proof.
  intros Hfirst Hne.
  assert (cached_registry e1 R) as HR.
  { eapply discovery_caches; [done|]. by destruct R. }
  split; [by apply get_default_modules_cached|].
  intros w. apply get_default_modules_cached. by destruct HR.
Qed.


(** X16. An empty registry is not kept: with [_DEFAULT_MODULES] holding
    the empty list a call discovers again, exactly as with [None]. *)
Theorem discovery_empty_cache_rediscovers e :
  _DEFAULT_MODULES e = Some [] →
  (ModuleConfig._get_default_modules e).1
  = (ModuleConfig._get_default_modules (set_DEFAULT_MODULES None e)).1.
Proof.
  intros Hc. unfold ModuleConfig._get_default_modules.
  cbv [mbind M_bind bind gets modify mret M_ret ret in_world]. rewrite Hc. simpl.
  destruct (open_asset _ _) as [[text|?] w]; simpl; [|done].
  assert (∀ lines acc (e1 e2 : Env), world e1 = world e2 →
            (ModuleConfig.read_modulelist lines acc e1).1
            = (ModuleConfig.read_modulelist lines acc e2).1
            ∧ world (ModuleConfig.read_modulelist lines acc e1).2
              = world (ModuleConfig.read_modulelist lines acc e2).2) as Hsame.
  { induction lines as [|line lines IH]; intros acc e1 e2 Hw; simpl; [done|].
    destruct (rstrip_newline line) as [|c r]; [done|].
    destruct (Ascii.eqb c "#"); [by apply IH|].
    cbv [mbind M_bind bind in_world]. rewrite Hw.
    destruct (builtin_import _ _ _) as [[m|?] w1]; simpl; [|done].
    unfold ModuleConfig.getitem. destruct (m !! _) as [cls|]; simpl; [|done].
    by apply IH. }
  destruct (Hsame (file_lines text) [] (set_world w e)
              (set_world w (set_DEFAULT_MODULES None e)) eq_refl) as [Hr _].
  destruct (ModuleConfig.read_modulelist _ _ (set_world w e)) as [[a1|?] ?],
    (ModuleConfig.read_modulelist _ _ (set_world w (set_DEFAULT_MODULES None e)))
      as [[a2|?] ?]; simpl in *; congruence.
Qed.

(** The loop on a manifest without blank lines whose names all resolve,
    in worlds that keep an invariant [I] the imports preserve. *)
Lemma read_modulelist_resolves (I : World → Prop) (cls_of : string → Cls)
    lines all_modules e :
  (∀ line, line ∈ lines → ¬ is_blank line) →
  (∀ name, name ∈ rstrip_newline <$> filter (λ l, is_comment l = false) lines →
     ∀ w, I w →
       ∃ m w', builtin_import ("coilsnake.modules." +:+ name)
                              [last_component (split "." name)] w = (Ok m, w')
               ∧ I w'
               ∧ m !! last_component (split "." name) = Some (cls_of name)) →
  I (world e) →
  ∃ e', ModuleConfig.read_modulelist lines all_modules e
        = (Ok (all_modules
                 ++ ((λ name, (name, cls_of name))
                       <$> (rstrip_newline <$> filter (λ l, is_comment l = false) lines))),
           e')
        ∧ I (world e').
Proof.
  revert all_modules e. induction lines as [|line lines IH];
    intros acc e Hnb Hres HI; simpl.
  { exists e. by rewrite app_nil_r. }
  rewrite filter_cons in Hres |- *.
  destruct (rstrip_newline line) as [|c r] eqn:Hline.
  { destruct (Hnb line); [by left|done]. }
  assert (is_comment line = Ascii.eqb c "#") as Hcomment
    by (unfold is_comment; by rewrite Hline).
  assert (∀ l, l ∈ lines → ¬ is_blank l) as Hnb'
    by (intros l Hl; apply Hnb; by right).
  destruct (Ascii.eqb c "#") eqn:Hc.
  - rewrite decide_False in Hres |- * by congruence. by apply IH.
  - rewrite decide_True in Hres |- * by done.
    rewrite fmap_cons, Hline in Hres |- *.
    destruct (Hres (String c r) ltac:(by left) (world e) HI)
      as (m & w' & Himp & HI' & Hcls).
    cbv [mbind M_bind bind in_world]. rewrite Himp. simpl.
    unfold ModuleConfig.getitem. rewrite Hcls. simpl.
    destruct (IH (acc ++ [(String c r, cls_of (String c r))]) (set_world w' e) Hnb')
      as (e' & Hrun & HIe'); [|done|].
    { intros name Hname. apply Hres. by right. }
    exists e'. split; [|done]. rewrite Hrun. by rewrite <-app_assoc.
Qed.

(** X17. On a manifest without blank lines whose module names all
    resolve to a module with the class named by the last component, the
    first call of [_get_default_modules] returns one (name, class) pair
    per line that is not a comment, in manifest order, and caches the
    list. *)
Theorem discovery_resolves_manifest (I : World → Prop) (cls_of : string → Cls) e text w :
  ModuleConfig.list_truth (default [] (_DEFAULT_MODULES e)) = false →
  open_asset "modulelist.txt" (world e) = (Ok text, w) →
  I w →
  (∀ line, line ∈ file_lines text → ¬ is_blank line) →
  (∀ name, name ∈ manifest_names text →
     ∀ w, I w →
       ∃ m w', builtin_import ("coilsnake.modules." +:+ name)
                              [last_component (split "." name)] w = (Ok m, w')
               ∧ I w'
               ∧ m !! last_component (split "." name) = Some (cls_of name)) →
  ∃ e', ModuleConfig._get_default_modules e
        = (Ok ((λ name, (name, cls_of name)) <$> manifest_names text), e')
        ∧ _DEFAULT_MODULES e'
          = Some ((λ name, (name, cls_of name)) <$> manifest_names text).
Proof.
  intros Hcold Hasset HI Hnb Hres. unfold ModuleConfig._get_default_modules.
  cbv [mbind M_bind bind gets modify mret M_ret ret in_world].
  rewrite Hcold, Hasset.
  destruct (read_modulelist_resolves I cls_of (file_lines text) [] (set_world w e)
              Hnb Hres HI) as (e' & Hrun & _).
  rewrite Hrun. simpl. by eexists.
Qed.
End DiscoveryMore.

(** ** Version names *)

(** X18. [get_version_name] never fails: it gives the name of the table
    for the versions 1 to 13 and ["Unknown Version"] for every other
    integer. *)
Theorem get_version_name_unknown (version : Z) :
  get_version_name version = "Unknown Version" ↔ (version < 1 ∨ 13 < version)%Z.
Proof.
  unfold get_version_name. split.
  - intros Hname.
    destruct (decide (1 ≤ version ≤ 13)%Z) as [Hin|]; [|lia]. exfalso.
    assert (version = 1 ∨ version = 2 ∨ version = 3 ∨ version = 4 ∨ version = 5
            ∨ version = 6 ∨ version = 7 ∨ version = 8 ∨ version = 9
            ∨ version = 10 ∨ version = 11 ∨ version = 12 ∨ version = 13)%Z
      as Hcases by lia.
    repeat (destruct Hcases as [-> | Hcases]; [by vm_compute in Hname|]).
    subst version. by vm_compute in Hname.
  - intros Hout.
    assert (VERSION_NAMES !! version = None) as ->; [|done].
    apply not_elem_of_list_to_map_1. simpl.
    repeat (apply not_elem_of_cons; split; [lia|]). apply not_elem_of_nil.
Qed.

(** ** Opening and creating a project, continued *)

Section OpenMore.
Context `{Host}.

#[local] Arguments Project.adopt : simpl never.

Lemma load_project_read snake_filename requested e :
  Project.load_project snake_filename requested e
  = match read_descriptor snake_filename (world e) with
    | (Ok data, w) =>
        match requested with
        | None => Project.adopt data (set_world w e)
        | Some r =>
            match d_romtype data with
            | None => (Raise (KeyError "romtype"), set_world w e)
            | Some data_romtype =>
                if bool_decide (r = data_romtype)
                then Project.adopt data (set_world w e)
                else (Ok {| Project.l_romtype := r; Project.l_resources := ∅;
                            Project.l_version := None;
                            Project.l_moduleconfig_dict := None |},
                      set_world w e)
            end
        end
    | (Raise x, w) => (Raise x, set_world w e)
    end.
Proof.
  unfold Project.load_project, read_descriptor.
  cbv [mbind M_bind bind in_world].
  destruct (builtin_open _ _ _ _ _) as [[f|?] w1]; simpl; [|done].
  destruct (yml_load f w1) as [[data|?] w2]; simpl; [|done].
  destruct requested as [r|]; [|done].
  destruct (d_romtype data) as [rt|]; simpl; [|done].
  by destruct (bool_decide (r = rt)).
Qed.

(** X19. When the descriptor cannot be read for an [OSError] and no
    usable target type is given ([None], the empty string or the
    unknown type), [__init__] raises [AssertionError] before any
    directory is made. *)
Theorem init_new_project_needs_type snake_filename requested e x w :
  read_descriptor snake_filename (world e) = (Raise x, w) →
  is_OSError x = true →
  requested = None ∨ requested = Some "" ∨ requested = Some ROM_TYPE_NAME_UNKNOWN →
  Project.__init__ snake_filename requested e
  = (Raise (AssertionError "Can't make new project of unknown type!"), set_world w e).
Proof.
  intros Hread Hos Hreq. unfold Project.__init__, try_except.
  cbv [mbind M_bind bind]. rewrite load_project_read, Hread, Hos.
  unfold Project.new_project, assert. cbv [mbind M_bind bind].
  destruct Hreq as [-> | [-> | ->]]; simpl; try done.
  rewrite bool_decide_true by done. by rewrite andb_false_r.
Qed.

(** X20. When the descriptor cannot be read for an [OSError] and a
    usable target type is given, [__init__] makes the directory of the
    file and, if that succeeds, returns a project of that type with an
    empty resource registry, the freshly derived module configuration
    and no version; an error of [os.makedirs] is passed on. *)
Theorem init_new_project snake_filename r e R x w :
  cached_registry e R →
  read_descriptor snake_filename (world e) = (Raise x, w) →
  is_OSError x = true →
  r ≠ "" →
  r ≠ ROM_TYPE_NAME_UNKNOWN →
  Project.__init__ snake_filename (Some r) e
  = match os_makedirs (os_path_dirname snake_filename) true w with
    | (Ok _, w') =>
        (Ok (project_of snake_filename r ∅
               (fresh_config r (os_path_dirname snake_filename) R) None),
         set_world w' e)
    | (Raise y, w') => (Raise y, set_world w' e)
    end.
Proof.
  intros HR Hread Hos Hne Hunk. unfold Project.__init__, try_except.
  cbv [mbind M_bind bind]. rewrite load_project_read, Hread, Hos.
  unfold Project.new_project, assert. cbv [mbind M_bind bind in_world].
  destruct r as [|c r]; [done|]. simpl.
  rewrite bool_decide_false by congruence. simpl.
  destruct (os_makedirs _ _ _) as [[[]|y] w']; simpl; [|done].
  rewrite (init_fresh _ R) by (by destruct HR). done.
Qed.

Lemma init_adopts_descriptor_aux snake_filename requested e data w rt res :
  read_descriptor snake_filename (world e) = (Ok data, w) →
  d_romtype data = Some rt →
  d_resources data = Some res →
  requested = None ∨ requested = Some rt →
  Project.__init__ snake_filename requested e
  = match ModuleConfig.__init__ rt (os_path_dirname snake_filename)
                                (d_moduleconfig data) (set_world w e) with
    | (Ok mc, e') =>
        (Ok (project_of snake_filename rt (default ∅ res) mc
               (Some (default 1%Z (d_version data)))), e')
    | (Raise y, e') => (Raise y, e')
    end.
Proof.
  intros Hread Hrt Hres Hreq. unfold Project.__init__, try_except.
  cbv [mbind M_bind bind]. rewrite load_project_read, Hread.
  assert (Project.adopt data (set_world w e)
          = (Ok {| Project.l_romtype := rt; Project.l_resources := default ∅ res;
                   Project.l_version := Some (default 1%Z (d_version data));
                   Project.l_moduleconfig_dict := d_moduleconfig data |},
             set_world w e)) as Hadopt.
  { unfold Project.adopt. cbv [mbind M_bind bind]. by rewrite Hrt, Hres. }
  destruct Hreq as [-> | ->]; rewrite ?Hrt, ?bool_decide_true by done;
    rewrite Hadopt; simpl;
    by destruct (ModuleConfig.__init__ _ _ _ _) as [[mc|y] e'].
Qed.

(** X21. An existing descriptor opened without target type, or with the
    stored one, is adopted: the project has the stored type, the stored
    resources (an empty registry when the key has no value), the stored
    version (1 when the file has none) and the module configuration
    [ModuleConfig.__init__] makes of the stored block. *)
Theorem init_adopts_descriptor snake_filename requested e data w rt res :
  read_descriptor snake_filename (world e) = (Ok data, w) →
  d_romtype data = Some rt →
  d_resources data = Some res →
  requested = None ∨ requested = Some rt →
  Project.__init__ snake_filename requested e
  = match ModuleConfig.__init__ rt (os_path_dirname snake_filename)
                                (d_moduleconfig data) (set_world w e) with
    | (Ok mc, e') =>
        (Ok (project_of snake_filename rt (default ∅ res) mc
               (Some (default 1%Z (d_version data)))), e')
    | (Raise y, e') => (Raise y, e')
    end.
Proof. apply init_adopts_descriptor_aux. Qed.

(** X22. A descriptor without [romtype] key raises [KeyError] whatever
    type is requested; one without [resources] key raises [KeyError]
    when its content would be adopted. *)
Theorem init_missing_key snake_filename requested e data w :
  read_descriptor snake_filename (world e) = (Ok data, w) →
  (d_romtype data = None →
     Project.__init__ snake_filename requested e
     = (Raise (KeyError "romtype"), set_world w e))
  ∧ (∀ rt, d_romtype data = Some rt →
       requested = None ∨ requested = Some rt →
       d_resources data = None →
       Project.__init__ snake_filename requested e
       = (Raise (KeyError "resources"), set_world w e)).
Proof.
  intros Hread. unfold Project.__init__, try_except.
  cbv [mbind M_bind bind]. rewrite load_project_read, Hread. split.
  - intros Hrt. unfold Project.adopt. cbv [mbind M_bind bind]. rewrite Hrt.
    by destruct requested.
  - intros rt Hrt Hreq Hres.
    assert (Project.adopt data (set_world w e)
            = (Raise (KeyError "resources"), set_world w e)) as Hadopt.
    { unfold Project.adopt. cbv [mbind M_bind bind]. by rewrite Hrt, Hres. }
    destruct Hreq as [-> | ->]; rewrite ?Hrt, ?bool_decide_true by done;
      by rewrite Hadopt.
Qed.

(** X23. An exception of opening or decoding the descriptor that is not
    an [OSError] is not taken for a missing file: [__init__] passes it
    on and creates nothing. *)
Theorem init_passes_other_errors snake_filename requested e x w :
  read_descriptor snake_filename (world e) = (Raise x, w) →
  is_OSError x = false →
  Project.__init__ snake_filename requested e = (Raise x, set_world w e).
Proof.
  intros Hread Hos. unfold Project.__init__, try_except.
  cbv [mbind M_bind bind]. by rewrite load_project_read, Hread, Hos.
Qed.

(** X24. A descriptor older than the module configuration (no such
    block, version below 13) opens with the freshly derived
    configuration, and the upgrade from its version to
    [FORMAT_VERSION] then goes through and only sets the version. *)
Theorem init_old_descriptor_upgrades snake_filename requested e R data w rt res :
  cached_registry e R →
  read_descriptor snake_filename (world e) = (Ok data, w) →
  d_romtype data = Some rt →
  d_resources data = Some res →
  d_moduleconfig data = None →
  requested = None ∨ requested = Some rt →
  (default 1 (d_version data) < 13)%Z →
  ∃ p,
    Project.__init__ snake_filename requested e = (Ok p, set_world w e)
    ∧ Project.version p = Some (default 1%Z (d_version data))
    ∧ Project.moduleconfig p = fresh_config rt (os_path_dirname snake_filename) R
    ∧ Project.upgrade (default 1%Z (d_version data)) FORMAT_VERSION (p, set_world w e)
      = (Ok tt, (Project.set_version (Some FORMAT_VERSION) p, set_world w e)).
Proof.
  intros HR Hread Hrt Hres Hmc Hreq Hold.
  assert (cached_registry (set_world w e) R) as HR' by (by destruct HR).
  eexists. split.
  { rewrite (init_adopts_descriptor_aux _ _ _ _ _ _ _ Hread Hrt Hres Hreq).
    rewrite Hmc, (init_fresh _ R) by done. done. }
  split; [done|]. split; [done|].
  unfold Project.upgrade, ModuleConfig.upgrade.
  cbv [mbind M_bind bind Project.self_ gets Project.in_env Project.update_self modify].
  simpl. rewrite bool_decide_true by done.
  cbv [mbind M_bind bind].
  rewrite (get_compatible_default_module_names_cached _ _ R HR'). simpl.
  by rewrite bool_decide_true.
Qed.
End OpenMore.

(** ** The resource registry, continued *)

Section ResourcesMore.
Context `{Host}.

Lemma registered_register_default_ne res module_name resource_name extension m' r' :
  (m', r') ≠ (module_name, resource_name) →
  registered (register_default res module_name resource_name extension) m' r'
  = registered res m' r'.
Proof.
  intros Hne. unfold register_default.
  destruct (registered res module_name resource_name) as [p|] eqn:Hreg; [done|].
  unfold registered. destruct (decide (m' = module_name)) as [->|Hm].
  - rewrite lookup_insert_eq. simpl.
    rewrite lookup_insert_ne by congruence.
    by destruct (res !! module_name).
  - by rewrite lookup_insert_ne.
Qed.

Lemma registered_unregister_ne res module_name resource_name m' r' :
  (m', r') ≠ (module_name, resource_name) →
  registered (unregister res module_name resource_name) m' r' = registered res m' r'.
Proof.
  intros Hne. unfold registered, unregister.
  destruct (decide (m' = module_name)) as [->|Hm].
  - rewrite lookup_insert_eq. simpl.
    rewrite lookup_delete_ne by congruence.
    by destruct (res !! module_name).
  - by rewrite lookup_insert_ne.
Qed.

(** X25. For a pair that is registered, [get_resource] takes the
    registered path and not the extension it is given: it opens that
    path under the project directory and leaves the project as it
    is. *)
Theorem get_resource_registered module_name resource_name extension mode encoding newline
    self e path :
  registered (Project._resources self) module_name resource_name = Some path →
  Project.get_resource module_name resource_name extension mode encoding newline
                       (self, e)
  = let (r, e') :=
      open_resolved (os_path_join (Project._dir_name self) path)
                    mode encoding newline e in
    (r, (self, e')).
Proof.
  intros Hreg. rewrite get_resource_unfold. unfold register_default.
  rewrite Hreg. simpl. by rewrite set_resources_id.
Qed.

(** X26. [get_resource] changes the registry at its own pair only:
    whatever it returns or raises, every other pair has the path it
    had, or none as before. *)
Theorem get_resource_frame module_name resource_name extension mode encoding newline
    self e m' r' :
  (m', r') ≠ (module_name, resource_name) →
  registered
    (Project._resources
       (Project.get_resource module_name resource_name extension mode encoding newline
                             (self, e)).2.1) m' r'
  = registered (Project._resources self) m' r'.
Proof.
  intros Hne. rewrite get_resource_unfold. simpl.
  destruct (open_resolved _ _ _ _ _) as [r e']. simpl.
  by apply registered_register_default_ne.
Qed.

(** X27. [delete_resource] changes the registry at its own pair only,
    whatever it returns or raises. *)
Theorem delete_resource_frame module_name resource_name self e m' r' :
  (m', r') ≠ (module_name, resource_name) →
  registered
    (Project._resources
       (Project.delete_resource module_name resource_name (self, e)).2.1) m' r'
  = registered (Project._resources self) m' r'.
Proof.
  intros Hne. rewrite delete_resource_unfold.
  destruct (Project._resources self !! module_name) as [inner|]; [|done].
  destruct (inner !! resource_name) as [path|]; [|done]. simpl.
  destruct (os_path_isfile _ _); simpl.
  - destruct (os_remove _ _) as [[[]|?] w]; simpl; [|done].
    by apply registered_unregister_ne.
  - by apply registered_unregister_ne.
Qed.

(** X28. Deleting a resource keeps its module in the registry, so a
    second [delete_resource] for the same pair raises the
    no-such-resource [CoilSnakeError] and changes nothing. *)
Theorem delete_resource_twice module_name resource_name self e self' e' :
  Project.delete_resource module_name resource_name (self, e) = (Ok tt, (self', e')) →
  is_Some (Project._resources self' !! module_name)
  ∧ Project.delete_resource module_name resource_name (self', e')
    = (Raise (CoilSnakeError ("No such resource " +:+ resource_name
                                +:+ " in module " +:+ module_name)),
       (self', e')).
Proof.
  rewrite delete_resource_unfold. intros Hdel.
  assert (Project._resources self'
          = unregister (Project._resources self) module_name resource_name) as Hres.
  { destruct (Project._resources self !! module_name) as [inner|]; [|done].
    destruct (inner !! resource_name) as [path|]; [|done].
    simpl in Hdel. destruct (os_path_isfile _ _).
    - destruct (os_remove _ _) as [[[]|?] ?]; [|done]. by injection Hdel as <- _.
    - by injection Hdel as <- _. }
  rewrite delete_resource_unfold, Hres. unfold unregister.
  rewrite lookup_insert_eq. split; [done|]. by rewrite lookup_delete_eq.
Qed.

(** X29. When the file of a registered resource exists and [os.remove]
    raises, [delete_resource] passes the exception on and the entry
    stays registered. *)
Theorem delete_resource_remove_fails module_name resource_name self e path x w :
  registered (Project._resources self) module_name resource_name = Some path →
  os_path_isfile (os_path_join (Project._dir_name self) path) (world e) = true →
  os_remove (os_path_join (Project._dir_name self) path) (world e) = (Raise x, w) →
  Project.delete_resource module_name resource_name (self, e)
  = (Raise x, (self, set_world w e)).
Proof.
  unfold registered. intros Hreg Hfile Hrm. rewrite delete_resource_unfold.
  destruct (Project._resources self !! module_name) as [inner|]; [|done].
  simpl in Hreg. rewrite Hreg. simpl. by rewrite Hfile, Hrm.
Qed.

(** X30. [save] does not change the project object, whatever it
    returns or raises; in particular the in-memory version stays what
    it was although the file is written with [FORMAT_VERSION].  When
    the file cannot be opened for writing, nothing is dumped. *)
Theorem save_keeps_project self e :
  (Project.save (self, e)).2.1 = self
  ∧ ∀ x w, builtin_open (Project.snake_filename self) "w" None None (world e)
           = (Raise x, w) →
           Project.save (self, e) = (Raise x, (self, set_world w e)).
Proof.
  unfold Project.save.
  cbv [mbind M_bind bind Project.self_ gets Project.in_env in_world]. simpl.
  destruct (builtin_open _ _ _ _ _) as [[f|x] w1]; simpl.
  - split; [|discriminate].
    destruct (yml_dump _ f w1) as [[[]|?] w2]; simpl; [|done].
    by destruct (yml_dump _ f w2) as [[[]|?] w3].
  - split; [done|]. by intros x' w' [= <- <-].
Qed.
End ResourcesMore.

(** ** Runs of the further properties on the in-memory host *)

Lemma get_project_modules_builtin_only_witness :
  cached_registry MemHost.env1 MemHost.registry0
  ∧ ModuleConfig.get_project_modules MemCases.config_mixed MemHost.env1
    = (Ok [("eb.MapModule", ["Earthbound"])], MemHost.env1).
Proof.
  split; [exact registry0_cached|].
  exact (get_project_modules_builtin_only MemCases.config_mixed MemHost.env1
           MemHost.registry0 registry0_cached eq_refl).
Defined.

Lemma registry0_cached_custom : cached_registry MemHost.env_custom MemHost.registry0.
Proof. split; reflexivity. Qed.

Lemma get_project_modules_shape_witness :
  ∃ res e',
    ModuleConfig.get_project_modules MemHost.config_custom MemHost.env_custom
    = (Ok res, e')
    ∧ ∃ specific,
        res = [("eb.SpriteModule", ["Earthbound"])] ++ specific
        ∧ specific.*1 = ["mymod.Thing"].
Proof.
  exists [("eb.SpriteModule", ["Earthbound"]); ("mymod.Thing", ["Earthbound"])],
         MemCases.env_loaded.
  split; [reflexivity|].
  exact (get_project_modules_shape MemHost.config_custom MemHost.env_custom
           MemHost.registry0 _ _ registry0_cached_custom eq_refl).
Defined.

Lemma init_stored_dict_outcome_witness :
  MemCases.dict_partial ≠ ∅
  ∧ ModuleConfig.__init__ "Earthbound" "proj" (Some MemCases.dict_partial) MemHost.env1
    = (Raise (KeyError "disabled modules"), MemHost.env1).
Proof.
  assert (MemCases.dict_partial ≠ ∅) as Hne by apply insert_non_empty.
  split; [exact Hne|].
  exact (init_stored_dict_outcome "Earthbound" "proj" MemCases.dict_partial
           MemHost.env1 Hne).
Defined.

Lemma init_empty_dict_is_fresh_witness :
  cached_registry MemHost.env1 MemHost.registry0
  ∧ ModuleConfig.__init__ "Earthbound" "proj" (Some ∅) MemHost.env1
    = (Ok MemHost.config0, MemHost.env1).
Proof.
  split; [exact registry0_cached|].
  exact (init_empty_dict_is_fresh "Earthbound" "proj" MemHost.env1 MemHost.registry0
           registry0_cached).
Defined.

Lemma add_missing_defaults_fresh_noop_witness :
  cached_registry MemHost.env1 MemHost.registry0
  ∧ ModuleConfig.add_missing_defaults MemHost.config0 true MemHost.env1
    = (Ok MemHost.config0, MemHost.env1).
Proof.
  split; [exact registry0_cached|].
  exact (add_missing_defaults_fresh_noop "Earthbound" "proj" true MemHost.env1
           MemHost.registry0 registry0_cached).
Defined.

Lemma add_missing_defaults_covers_witness :
  ∃ self',
    ModuleConfig.add_missing_defaults MemHost.config_stale false MemHost.env1
    = (Ok self', MemHost.env1)
    ∧ ("eb.SpriteModule" ∈ ModuleConfig.enabled_module_names self'
       ∨ "eb.SpriteModule" ∈ ModuleConfig.disabled_module_names self').
Proof.
  exists (ModuleConfig.set_disabled_module_names ["eb.SpriteModule"] MemHost.config_stale).
  split; [reflexivity|].
  apply (add_missing_defaults_covers MemHost.config_stale false MemHost.env1
           MemHost.registry0 _ MemHost.env1 registry0_cached eq_refl).
  right. left.
Defined.

Lemma add_missing_defaults_keeps_lists_witness :
  disjoint_lists MemHost.config1
  ∧ ∃ self',
      ModuleConfig.add_missing_defaults MemHost.config1 true MemHost.env1
      = (Ok self', MemHost.env1)
      ∧ disjoint_lists self'.
Proof.
  assert (disjoint_lists MemHost.config1) as Hdisj.
  { intros name Hen Hdis. simpl in Hen, Hdis.
    apply list_elem_of_singleton in Hen as ->.
    apply list_elem_of_singleton in Hdis. discriminate Hdis. }
  split; [exact Hdisj|]. exists MemHost.config1. split; [reflexivity|].
  apply (add_missing_defaults_keeps_lists MemHost.config1 true MemHost.env1
           MemHost.registry0 _ MemHost.env1 registry0_cached eq_refl).
  exact Hdisj.
Defined.

Lemma get_project_modules_restores_path_witness :
  cached_registry MemHost.env_custom MemHost.registry0
  ∧ sys_path (ModuleConfig.get_project_modules MemHost.config_custom MemHost.env_custom).2
    = ["/usr/lib/python3"].
Proof.
  split; [exact registry0_cached_custom|].
  exact (proj1 (get_project_modules_restores_path MemHost.config_custom
                  MemHost.env_custom MemHost.registry0 registry0_cached_custom)).
Defined.

Lemma load_project_specific_module_known_witness :
  sys_modules MemCases.env_loaded !! "mymod.Thing" = Some {[ "Thing" := ["Earthbound"] ]}
  ∧ ModuleConfig.load_project_specific_module MemHost.config_custom "mymod.Thing"
                                              MemCases.env_loaded
    = (Ok ["Earthbound"], MemCases.env_loaded).
Proof.
  assert (sys_modules MemCases.env_loaded !! "mymod.Thing"
          = Some {[ "Thing" := ["Earthbound"] ]}) as Hm by reflexivity.
  split; [exact Hm|].
  exact (load_project_specific_module_known MemHost.config_custom "mymod.Thing"
           MemCases.env_loaded _ Hm).
Defined.

Lemma load_project_specific_module_twice_witness :
  ModuleConfig.load_project_specific_module MemHost.config_custom "mymod.Thing"
                                            MemHost.env_custom
  = (Ok ["Earthbound"], MemCases.env_loaded)
  ∧ ModuleConfig.load_project_specific_module MemHost.config_custom "mymod.Thing"
                                              MemCases.env_loaded
    = (Ok ["Earthbound"], MemCases.env_loaded).
Proof.
  assert (ModuleConfig.load_project_specific_module MemHost.config_custom "mymod.Thing"
                                                    MemHost.env_custom
          = (Ok ["Earthbound"], MemCases.env_loaded)) as Hfirst by reflexivity.
  split; [exact Hfirst|].
  exact (load_project_specific_module_twice _ _ _ _ _ Hfirst).
Defined.


Lemma load_project_specific_module_malformed_witness :
  ∃ e',
    ModuleConfig.load_project_specific_module MemHost.config_custom "mymod.Thing"
                                              MemCases.env_malformed
    = (Raise (ValueError "Module 'mymod.Thing' must have a class named 'Thing'"), e')
    ∧ sys_modules e' !! "mymod.Thing" = Some {[ "Other" := ["Earthbound"] ]}.
Proof.
  exists (set_sys_modules {[ "mymod.Thing" := {[ "Other" := ["Earthbound"] ]} ]}
            MemCases.env_malformed).
  split.
  - exact (load_project_specific_module_malformed MemHost.config_custom "mymod.Thing"
             MemCases.env_malformed (world MemCases.env_malformed)
             {[ "Other" := ["Earthbound"] ]} (world MemCases.env_malformed)
             eq_refl eq_refl eq_refl eq_refl).
  - reflexivity.
Defined.

Lemma discovery_only_once_witness :
  ModuleConfig._get_default_modules MemHost.env0 = (Ok MemHost.registry0, MemHost.env1)
  ∧ ModuleConfig._get_default_modules MemHost.env1 = (Ok MemHost.registry0, MemHost.env1)
  ∧ ModuleConfig._get_default_modules MemCases.env_manifest_changed
    = (Ok MemHost.registry0, MemCases.env_manifest_changed).
Proof.
  assert (ModuleConfig._get_default_modules MemHost.env0
          = (Ok MemHost.registry0, MemHost.env1)) as Hfirst by reflexivity.
  destruct (discovery_only_once MemHost.env0 MemHost.registry0 MemHost.env1 Hfirst
              ltac:(discriminate)) as [Hagain Hworld].
  split; [exact Hfirst|]. split; [exact Hagain|].
  exact (Hworld (world MemHost.env_blank)).
Defined.


Lemma discovery_empty_cache_rediscovers_witness :
  _DEFAULT_MODULES MemCases.env_empty_cache = Some []
  ∧ (ModuleConfig._get_default_modules MemCases.env_empty_cache).1
    = Ok MemHost.registry0.
Proof.
  split; [reflexivity|].
  rewrite (discovery_empty_cache_rediscovers MemCases.env_empty_cache eq_refl).
  reflexivity.
Defined.

Lemma modulelist_no_blank line :
  line ∈ file_lines MemHost.modulelist → ¬ is_blank line.
Proof.
  intros Hin. vm_compute in Hin. unfold is_blank.
  repeat (apply elem_of_cons in Hin as [->|Hin]; [by vm_compute|]).
  by apply elem_of_nil in Hin.
Qed.

Lemma modulelist_resolves name :
  name ∈ manifest_names MemHost.modulelist →
  ∀ w : MemHost.MemWorld, MemCases.same_modules w →
    ∃ m w', MemHost.import_ ("coilsnake.modules." +:+ name)
                            [last_component (split "." name)] w = (Ok m, w')
            ∧ MemCases.same_modules w'
            ∧ m !! last_component (split "." name) = Some (MemCases.cls_of0 name).
Proof.
  intros Hin w Hw. vm_compute in Hin. unfold MemHost.import_. rewrite Hw.
  repeat (apply elem_of_cons in Hin as [->|Hin];
          [eexists _, _; split; [reflexivity|split; [exact Hw|reflexivity]]|]).
  by apply elem_of_nil in Hin.
Qed.

Lemma discovery_resolves_manifest_witness :
  ∃ e',
    ModuleConfig._get_default_modules MemHost.env0
    = (Ok [("eb.MapModule", ["Earthbound"]); ("smb.StagesModule", ["Super Mario Bros"]);
           ("eb.SpriteModule", ["Earthbound"])], e')
    ∧ _DEFAULT_MODULES e'
      = Some [("eb.MapModule", ["Earthbound"]); ("smb.StagesModule", ["Super Mario Bros"]);
              ("eb.SpriteModule", ["Earthbound"])].
Proof.
  exact (discovery_resolves_manifest MemCases.same_modules MemCases.cls_of0
           MemHost.env0 MemHost.modulelist MemHost.world0
           eq_refl eq_refl eq_refl modulelist_no_blank modulelist_resolves).
Defined.

Lemma init_new_project_needs_type_witness :
  read_descriptor "proj/Project.snake" (world MemHost.env1)
  = (Raise (OSError "No such file or directory"), world MemHost.env1)
  ∧ Project.__init__ "proj/Project.snake" None MemHost.env1
    = (Raise (AssertionError "Can't make new project of unknown type!"), MemHost.env1)
  ∧ Project.__init__ "proj/Project.snake" (Some "Unknown") MemHost.env1
    = (Raise (AssertionError "Can't make new project of unknown type!"), MemHost.env1).
Proof.
  assert (read_descriptor "proj/Project.snake" (world MemHost.env1)
          = (Raise (OSError "No such file or directory"), world MemHost.env1))
    as Hread by reflexivity.
  split; [exact Hread|]. split.
  - exact (init_new_project_needs_type "proj/Project.snake" None MemHost.env1 _ _
             Hread eq_refl (or_introl eq_refl)).
  - exact (init_new_project_needs_type "proj/Project.snake" (Some "Unknown") MemHost.env1
             _ _ Hread eq_refl (or_intror (or_intror eq_refl))).
Defined.

Lemma init_new_project_witness :
  cached_registry MemHost.env1 MemHost.registry0
  ∧ Project.__init__ "proj/Project.snake" (Some "Earthbound") MemHost.env1
    = (Ok MemHost.project0, MemHost.env_proj)
  ∧ Project.__init__ "Project.snake" (Some "Earthbound") MemHost.env1
    = (Raise (OSError "No such file or directory"), MemHost.env1).
Proof.
  split; [exact registry0_cached|]. split.
  - exact (init_new_project "proj/Project.snake" "Earthbound" MemHost.env1
             MemHost.registry0 (OSError "No such file or directory") (world MemHost.env1)
             registry0_cached eq_refl eq_refl ltac:(discriminate) ltac:(discriminate)).
  - exact (init_new_project "Project.snake" "Earthbound" MemHost.env1
             MemHost.registry0 (OSError "No such file or directory") (world MemHost.env1)
             registry0_cached eq_refl eq_refl ltac:(discriminate) ltac:(discriminate)).
Defined.

Lemma init_adopts_descriptor_witness :
  read_descriptor "proj/Project.snake" (world MemCases.env_old)
  = (Ok MemCases.data_old, world MemCases.env_old)
  ∧ ∃ p,
      Project.__init__ "proj/Project.snake" None MemCases.env_old
      = (Ok p, MemCases.env_old)
      ∧ Project._resources p = ∅
      ∧ Project.version p = Some 9%Z
      ∧ Project.moduleconfig p = MemHost.config0.
Proof.
  assert (read_descriptor "proj/Project.snake" (world MemCases.env_old)
          = (Ok MemCases.data_old, world MemCases.env_old)) as Hread by reflexivity.
  split; [exact Hread|].
  exists (Project.set_version (Some 9%Z) MemHost.project0).
  split; [|repeat split].
  exact (init_adopts_descriptor "proj/Project.snake" None MemCases.env_old
           MemCases.data_old _ "Earthbound" None Hread eq_refl eq_refl
           (or_introl eq_refl)).
Defined.

Lemma init_missing_key_witness :
  read_descriptor "proj/Project.snake" (world MemCases.env_empty_file)
  = (Ok empty_data, world MemCases.env_empty_file)
  ∧ Project.__init__ "proj/Project.snake" (Some "Earthbound") MemCases.env_empty_file
    = (Raise (KeyError "romtype"), MemCases.env_empty_file).
Proof.
  assert (read_descriptor "proj/Project.snake" (world MemCases.env_empty_file)
          = (Ok empty_data, world MemCases.env_empty_file)) as Hread by reflexivity.
  split; [exact Hread|].
  exact (proj1 (init_missing_key "proj/Project.snake" (Some "Earthbound")
                  MemCases.env_empty_file empty_data _ Hread) eq_refl).
Defined.

Lemma init_passes_other_errors_witness :
  Project.__init__ (H := MemCases.faulty_host) "proj/Project.snake" (Some "Earthbound")
                   MemCases.faulty_env
  = (Raise (OtherException "could not parse the descriptor"), MemCases.faulty_env).
Proof.
  exact (init_passes_other_errors (H := MemCases.faulty_host) "proj/Project.snake"
           (Some "Earthbound") MemCases.faulty_env
           (OtherException "could not parse the descriptor")
           (world MemCases.faulty_env) eq_refl eq_refl).
Defined.

Lemma registry0_cached_old : cached_registry MemCases.env_old MemHost.registry0.
Proof. split; reflexivity. Qed.

Lemma init_old_descriptor_upgrades_witness :
  cached_registry MemCases.env_old MemHost.registry0
  ∧ ∃ p,
      Project.__init__ "proj/Project.snake" None MemCases.env_old
      = (Ok p, MemCases.env_old)
      ∧ Project.version p = Some 9%Z
      ∧ Project.upgrade 9 13 (p, MemCases.env_old)
        = (Ok tt, (Project.set_version (Some 13%Z) p, MemCases.env_old)).
Proof.
  split; [exact registry0_cached_old|].
  destruct (init_old_descriptor_upgrades "proj/Project.snake" None MemCases.env_old
              MemHost.registry0 MemCases.data_old (world MemCases.env_old)
              "Earthbound" None registry0_cached_old eq_refl eq_refl eq_refl eq_refl
              (or_introl eq_refl) ltac:(simpl; lia))
    as (p & Hinit & Hv & _ & Hup).
  exists p. split; [exact Hinit|]. split; [exact Hv|exact Hup].
Defined.

Lemma get_resource_registered_witness :
  registered (Project._resources MemHost.project1) "eb.MapModule" "map_tiles"
  = Some "map_tiles.map"
  ∧ Project.get_resource "eb.MapModule" "map_tiles" "dat" "r" None None
                         (MemHost.project1, MemHost.env_proj)
    = (Raise (OSError "No such file or directory"), (MemHost.project1, MemHost.env_proj)).
Proof.
  split; [reflexivity|].
  exact (get_resource_registered "eb.MapModule" "map_tiles" "dat" "r" None None
           MemHost.project1 MemHost.env_proj "map_tiles.map" eq_refl).
Defined.

Lemma get_resource_frame_witness :
  ("eb.MapModule", "map_tiles") ≠ ("eb.MapModule", "map_sectors")
  ∧ registered
      (Project._resources
         (Project.get_resource "eb.MapModule" "map_sectors" "yml" "w" None None
                               (MemHost.project1, MemHost.env_proj)).2.1)
      "eb.MapModule" "map_tiles"
    = Some "map_tiles.map".
Proof.
  assert (("eb.MapModule", "map_tiles") ≠ ("eb.MapModule", "map_sectors")) as Hne
    by discriminate.
  split; [exact Hne|].
  exact (get_resource_frame "eb.MapModule" "map_sectors" "yml" "w" None None
           MemHost.project1 MemHost.env_proj "eb.MapModule" "map_tiles" Hne).
Defined.

Lemma delete_resource_frame_witness :
  ("eb.MapModule", "map_tiles") ≠ ("eb.MapModule", "map_sectors")
  ∧ registered
      (Project._resources
         (Project.delete_resource "eb.MapModule" "map_sectors"
                                  (MemHost.project1, MemHost.env_proj)).2.1)
      "eb.MapModule" "map_tiles"
    = Some "map_tiles.map".
Proof.
  assert (("eb.MapModule", "map_tiles") ≠ ("eb.MapModule", "map_sectors")) as Hne
    by discriminate.
  split; [exact Hne|].
  exact (delete_resource_frame "eb.MapModule" "map_sectors"
           MemHost.project1 MemHost.env_proj "eb.MapModule" "map_tiles" Hne).
Defined.

Lemma delete_resource_twice_witness :
  ∃ self',
    Project.delete_resource "eb.MapModule" "map_tiles" (MemHost.project1, MemHost.env_proj)
    = (Ok tt, (self', MemHost.env_proj))
    ∧ Project.delete_resource "eb.MapModule" "map_tiles" (self', MemHost.env_proj)
      = (Raise (CoilSnakeError "No such resource map_tiles in module eb.MapModule"),
         (self', MemHost.env_proj)).
Proof.
  exists (Project.set_resources {[ "eb.MapModule" := ∅ ]} MemHost.project1).
  assert (Project.delete_resource "eb.MapModule" "map_tiles"
                                  (MemHost.project1, MemHost.env_proj)
          = (Ok tt, (Project.set_resources {[ "eb.MapModule" := ∅ ]} MemHost.project1,
                     MemHost.env_proj))) as Hdel by reflexivity.
  split; [exact Hdel|].
  exact (proj2 (delete_resource_twice _ _ _ _ _ _ Hdel)).
Defined.

Lemma delete_resource_remove_fails_witness :
  Project.delete_resource (H := MemCases.faulty_host) "eb.MapModule" "map_tiles"
                          (MemHost.project1, MemCases.faulty_env)
  = (Raise (OSError "Permission denied"), (MemHost.project1, MemCases.faulty_env)).
Proof.
  exact (delete_resource_remove_fails (H := MemCases.faulty_host)
           "eb.MapModule" "map_tiles" MemHost.project1 MemCases.faulty_env
           "map_tiles.map" (OSError "Permission denied") (world MemCases.faulty_env)
           eq_refl eq_refl eq_refl).
Defined.

Lemma save_keeps_project_witness :
  Project.save (MemHost.project0, MemHost.env1)
  = (Raise (OSError "No such file or directory"), (MemHost.project0, MemHost.env1))
  ∧ (Project.save (MemHost.project1, MemHost.env_proj)).2.1 = MemHost.project1.
Proof.
  split.
  - exact (proj2 (save_keeps_project MemHost.project0 MemHost.env1)
             (OSError "No such file or directory") (world MemHost.env1) eq_refl).
  - exact (proj1 (save_keeps_project MemHost.project1 MemHost.env_proj)).
Defined.
